(** * VisionCraft authentication routes (routes/auth.js)

    A shallow embedding of the Express router of [routes/auth.js]: the
    [protect] middleware and the handlers of [/register], [/login], [/me],
    [/logout], [/admin/login] and [/admin/logout].

    The handlers are [async] functions that talk to the Mongoose [User] model
    and to the [jsonwebtoken] library inside [try]/[catch] blocks.  They are
    embedded in a small state-and-exception monad over the data store; a
    thrown JavaScript [Error] is represented by its [message]. *)

From Stdlib Require Import String Ascii List ZArith Bool Lia DecimalString.
Import ListNotations.
Local Open Scope string_scope.
Local Open Scope Z_scope.

(** ** JavaScript values *)

(** The values that travel through request bodies, documents and JSON
    responses.  An object literal keeps its fields in source order. *)
#[warnings="-register-all"] Inductive value : Type :=
| VUndef
| VNull
| VBool (b : bool)
| VNum (n : Z)
| VStr (s : string)
| VObj (fields : list (string * value)).

Definition obj := list (string * value).

(** Property lookup on an object literal: the first binding of [k]. *)
Fixpoint lookup (o : obj) (k : string) : option value :=
  match o with
  | [] => None
  | (k', v) :: o' => if String.eqb k k' then Some v else lookup o' k
  end.

(** [o.k] in JavaScript: [undefined] when the property is absent. *)
Definition get (o : obj) (k : string) : value :=
  match lookup o k with
  | Some v => v
  | None => VUndef
  end.

(** [v.k] for an arbitrary value; used to walk into a JSON body. *)
Definition field (v : value) (k : string) : option value :=
  match v with
  | VObj o => lookup o k
  | _ => None
  end.

(** JavaScript truthiness, as tested by [!x] and [if (x)]. *)
Definition truthy (v : value) : bool :=
  match v with
  | VUndef | VNull => false
  | VBool b => b
  | VNum n => negb (n =? 0)
  | VStr s => negb (String.eqb s "")
  | VObj _ => true
  end.

(** ** Strings: [startsWith] and [split] *)

Definition startsWith (s p : string) : bool := String.prefix p s.

(** [s.split(c)] for a one-character separator. *)
Fixpoint split (c : ascii) (s : string) : list string :=
  match s with
  | EmptyString => [EmptyString]
  | String a s' =>
      if Ascii.eqb a c then EmptyString :: split c s'
      else match split c s' with
           | [] => [String a EmptyString]
           | w :: ws => String a w :: ws
           end
  end.

(** ** Exceptions and the handler monad *)

(** A computation either returns or throws an [Error] with a message. *)
Inductive result (A : Type) : Type :=
| Ok (a : A)
| Throw (message : string).
Arguments Ok {A} a.
Arguments Throw {A} message.

Module Async.

(** An [async] computation over a store [S]: it may read and update the
    store and may reject.  Updates made before a rejection persist. *)
Definition M (S A : Type) : Type := S -> result A * S.

Definition ret {S A} (a : A) : M S A := fun s => (Ok a, s).

Definition throw {S A} (e : string) : M S A := fun s => (Throw e, s).

Definition bind {S A B} (m : M S A) (k : A -> M S B) : M S B :=
  fun s =>
    match m s with
    | (Ok a, s') => k a s'
    | (Throw e, s') => (Throw e, s')
    end.

(** [try { m } catch (error) { h error.message }] *)
Definition try_catch {S A} (m : M S A) (h : string -> M S A) : M S A :=
  fun s =>
    match m s with
    | (Ok a, s') => (Ok a, s')
    | (Throw e, s') => h e s'
    end.

(** A synchronous library call that may throw. *)
Definition lift {S A} (r : result A) : M S A := fun s => (r, s).

End Async.

Declare Scope async_scope.
Delimit Scope async_scope with async.
Notation "x <- m ;; k" := (Async.bind m (fun x => k))
  (at level 61, m at next level, right associativity) : async_scope.
Local Open Scope async_scope.

(** ** Libraries *)

(** The two libraries the routes rely on, as interfaces: [jsonwebtoken]
    ([jwt.sign(payload, secret, {expiresIn})] and [jwt.verify(token, secret)],
    both reading the clock) and the password hashing primitive behind
    [user.comparePassword].  [jwt_verify] throws for a malformed token, a bad
    signature and an expired token alike. *)
Class Libs : Type := {
  jwt_sign : obj -> value -> value -> Z -> result string;
  jwt_verify : string -> value -> Z -> result obj;
  pw_hash : string -> string;
  pw_check : string -> string -> bool
}.

(** ** The User model *)

(** A Mongoose user document, with the fields the routes read. *)
Record UserDoc : Type := {
  _id : value;
  email : value;
  password : value;
  firstName : value;
  lastName : value;
  role : value;
  phone : value;
  address : value;
  languagePreference : value;
  createdAt : value;
  updatedAt : value
}.

(** [.select('-password')], [.select('+password')], or no [select] call. *)
Inductive projection : Type := Default | MinusPassword | PlusPassword.

(** Modelled from the spec: the data store behind [models/User.js], which is
    not among the source files.  It is the collaborator of the spec's section
    6: key-based lookup of identities and creation under a unique index on
    email.  [down = Some msg] is a store that fails: every operation rejects
    with [Error(msg)]. *)
Record DB : Type := {
  users : list UserDoc;
  seq : nat;
  down : option string
}.

Module User.

Definition doc_field (u : UserDoc) (k : string) : value :=
  if String.eqb k "_id" then _id u
  else if String.eqb k "email" then email u
  else if String.eqb k "password" then password u
  else if String.eqb k "firstName" then firstName u
  else if String.eqb k "lastName" then lastName u
  else if String.eqb k "role" then role u
  else if String.eqb k "phone" then phone u
  else VUndef.

(** Query values are compared as strings, the schema type of the keys the
    routes query on; anything else matches no document. *)
Definition same_string (a b : value) : bool :=
  match a, b with
  | VStr x, VStr y => String.eqb x y
  | _, _ => false
  end.

Definition matches (filter : obj) (u : UserDoc) : bool :=
  forallb (fun kv => same_string (doc_field u (fst kv)) (snd kv)) filter.

Definition without_password (u : UserDoc) : UserDoc :=
  {| _id := _id u; email := email u; password := VUndef;
     firstName := firstName u; lastName := lastName u; role := role u;
     phone := phone u; address := address u;
     languagePreference := languagePreference u;
     createdAt := createdAt u; updatedAt := updatedAt u |}.

(** Modelled from the spec: the password hash is left out of a document
    unless the query asks for it with [+password]. *)
Definition project (sel : projection) (u : UserDoc) : UserDoc :=
  match sel with
  | PlusPassword => u
  | Default | MinusPassword => without_password u
  end.

(** Modelled from the spec: [User.findOne(filter)], the first identity
    matching every key of the filter, or [null]. *)
Definition findOne (filter : obj) (sel : projection)
  : Async.M DB (option UserDoc) :=
  fun db =>
    match down db with
    | Some msg => (Throw msg, db)
    | None => (Ok (option_map (project sel) (find (matches filter) (users db))), db)
    end.

(** Modelled from the spec: [User.findById(id)], key-based lookup. *)
Definition findById (id : value) (sel : projection)
  : Async.M DB (option UserDoc) :=
  findOne [("_id", id)] sel.

Definition fresh_id (n : nat) : string :=
  "u" ++ DecimalString.NilEmpty.string_of_uint (Nat.to_uint n).

(** Modelled from the spec: [User.create(fields)].  The unique index on
    email rejects a duplicate; the password is stored as its hash only; a
    new identity is a customer. *)
Definition create {L : Libs} (fields : obj) (now : Z) : Async.M DB UserDoc :=
  fun db =>
    match down db with
    | Some msg => (Throw msg, db)
    | None =>
        if existsb (fun u => same_string (email u) (get fields "email")) (users db)
        then (Throw "E11000 duplicate key error collection: users index: email_1", db)
        else
          let u :=
            {| _id := VStr (fresh_id (seq db));
               email := get fields "email";
               password := match get fields "password" with
                           | VStr p => VStr (pw_hash p)
                           | _ => VUndef
                           end;
               firstName := get fields "firstName";
               lastName := get fields "lastName";
               role := VStr "customer";
               phone := get fields "phone";
               address := VUndef;
               languagePreference := VUndef;
               createdAt := VNum now;
               updatedAt := VNum now |} in
          (Ok u, {| users := users db ++ [u]; seq := S (seq db); down := down db |})
    end.

(** Modelled from the spec: [user.comparePassword(candidate)], the
    candidate checked against the stored hash.  The hashing primitive
    throws when either side is not a string. *)
Definition comparePassword {L : Libs} (u : UserDoc) (candidate : value)
  : Async.M DB bool :=
  match password u, candidate with
  | VStr h, VStr c => Async.ret (pw_check c h)
  | _, _ => Async.throw "Illegal arguments"
  end.

End User.

(** ** Requests and responses *)

(** [process.env], as far as the routes read it. *)
Record env : Type := {
  JWT_SECRET : value;
  JWT_EXPIRES_IN : value
}.

(** An Express request: the [authorization] header, the parsed JSON [body]
    and [req.user], which [protect] sets ([None] is [null] or [undefined]).
    A request is one whose body a JSON parser has turned into an object;
    requests that reach the router with [req.body] undefined are not
    represented. *)
Record request : Type := {
  authorization : option string;
  body : obj;
  user : option UserDoc
}.

(** [res.status(code).json(payload)] *)
Record response : Type := {
  status : Z;
  json : value
}.

(** What a middleware does with a request: call [next()] or answer. *)
Inductive step : Type :=
| Next (req : request)
| Respond (r : response).

(** [req.body.k] *)
Definition body_field (req : request) (k : string) : value := get (body req) k.

Definition set_user (req : request) (u : option UserDoc) : request :=
  {| authorization := authorization req; body := body req; user := u |}.

(** Reading a property of [req.user] throws a [TypeError] on [null]. *)
Definition user_prop {S} (req : request) (p : UserDoc -> value) (name : string)
  : Async.M S value :=
  match user req with
  | Some u => Async.ret (p u)
  | None => Async.throw ("Cannot read properties of null (reading '" ++ name ++ "')")
  end.

(** [router.METHOD(path, middleware, handler)] *)
Definition route {S} (mw : request -> Async.M S step)
  (handler : request -> Async.M S response) (req : request)
  : Async.M S response :=
  s <- mw req ;;
  match s with
  | Next req' => handler req'
  | Respond r => Async.ret r
  end.

(** ** The routes *)

Section Routes.

Context {L : Libs}.

(** [process.env] and the clock read by [jsonwebtoken]. *)
Variable cfg : env.
Variable now : Z.

(** The token taken from the [authorization] header: the second
    space-separated piece of a header that starts with [Bearer]. *)
Definition bearer_token (req : request) : option string :=
  match authorization req with
  | Some h =>
      if negb (String.eqb h "") && startsWith h "Bearer"
      then nth_error (split " "%char h) 1
      else None
  | None => None
  end.

(** [!token] *)
Definition no_token (token : option string) : bool :=
  match token with
  | Some t => String.eqb t ""
  | None => true
  end.

Definition not_authorized : response :=
  {| status := 401;
     json := VObj [("status", VStr "error");
                   ("message", VStr "Not authorized to access this route")] |}.

(** Middleware to protect routes. *)
Definition protect (req : request) : Async.M DB step :=
  Async.try_catch
    (let token := bearer_token req in
     if no_token token then Async.ret (Respond not_authorized)
     else
       decoded <- Async.lift (jwt_verify (match token with Some t => t | None => "" end)
                                         (JWT_SECRET cfg) now) ;;
       u <- User.findById (get decoded "id") MinusPassword ;;
       Async.ret (Next (set_user req u)))
    (fun error => Async.ret (Respond not_authorized)).

(** [jwt.sign({ id: user._id }, process.env.JWT_SECRET,
              { expiresIn: process.env.JWT_EXPIRES_IN })] *)
Definition token_payload (u : UserDoc) : obj := [("id", _id u)].

Definition sign_token (u : UserDoc) : result string :=
  jwt_sign (token_payload u) (JWT_SECRET cfg) (JWT_EXPIRES_IN cfg) now.

(** Register new user.  The locals [email], [password], [firstName],
    [lastName] and [phone] of the source are the [req.body] fields. *)
Definition register (req : request) : Async.M DB response :=
  Async.try_catch
    (userExists <- User.findOne [("email", body_field req "email")] Default ;;
     match userExists with
     | Some _ =>
         Async.ret
           {| status := 400;
              json := VObj [("status", VStr "error");
                            ("message", VStr "User already exists")] |}
     | None =>
         user <- User.create [("email", body_field req "email");
                              ("password", body_field req "password");
                              ("firstName", body_field req "firstName");
                              ("lastName", body_field req "lastName");
                              ("phone", body_field req "phone")] now ;;
         token <- Async.lift (sign_token user) ;;
         Async.ret
           {| status := 201;
              json := VObj [("status", VStr "success");
                            ("token", VStr token);
                            ("data", VObj [("user", VObj [
                               ("id", _id user);
                               ("email", email user);
                               ("firstName", firstName user);
                               ("lastName", lastName user);
                               ("role", role user)])])] |}
     end)
    (fun message =>
       Async.ret
         {| status := 400;
            json := VObj [("status", VStr "error"); ("message", VStr message)] |}).

(** Login user.  The single [401] answer of the source serves both the
    unknown email and the failed comparison; [comparePassword] only runs
    when a user was found. *)
Definition login (req : request) : Async.M DB response :=
  Async.try_catch
    (if negb (truthy (body_field req "email"))
        || negb (truthy (body_field req "password")) then
       Async.ret
         {| status := 400;
            json := VObj [("status", VStr "error");
                          ("message", VStr "Please provide email and password")] |}
     else
       let invalid :=
         {| status := 401;
            json := VObj [("status", VStr "error");
                          ("message", VStr "Invalid credentials")] |} in
       found <- User.findOne [("email", body_field req "email")] PlusPassword ;;
       match found with
       | None => Async.ret invalid
       | Some user =>
           same <- User.comparePassword user (body_field req "password") ;;
           if negb same then Async.ret invalid
           else
             token <- Async.lift (sign_token user) ;;
             Async.ret
               {| status := 200;
                  json := VObj [("status", VStr "success");
                                ("token", VStr token);
                                ("data", VObj [("user", VObj [
                                   ("id", _id user);
                                   ("email", email user);
                                   ("firstName", firstName user);
                                   ("lastName", lastName user);
                                   ("role", role user)])])] |}
       end)
    (fun message =>
       Async.ret
         {| status := 400;
            json := VObj [("status", VStr "error"); ("message", VStr message)] |}).

(** Get current user profile (the handler behind [protect]). *)
Definition me_handler (req : request) : Async.M DB response :=
  Async.try_catch
    (id <- user_prop req _id "_id" ;;
     found <- User.findById id MinusPassword ;;
     match found with
     | None =>
         Async.ret
           {| status := 404;
              json := VObj [("status", VStr "error");
                            ("message", VStr "User not found")] |}
     | Some user =>
         Async.ret
           {| status := 200;
              json := VObj [("status", VStr "success");
                            ("data", VObj [("user", VObj [
                               ("id", _id user);
                               ("email", email user);
                               ("firstName", firstName user);
                               ("lastName", lastName user);
                               ("role", role user);
                               ("phone", phone user);
                               ("address", address user);
                               ("languagePreference", languagePreference user);
                               ("createdAt", createdAt user);
                               ("updatedAt", updatedAt user)])])] |}
     end)
    (fun _ =>
       Async.ret
         {| status := 500;
            json := VObj [("status", VStr "error");
                          ("message", VStr "Error retrieving user profile")] |}).

Definition me : request -> Async.M DB response := route protect me_handler.

(** User logout (the handler behind [protect]). *)
Definition logout_handler (req : request) : Async.M DB response :=
  Async.ret
    {| status := 200;
       json := VObj [("status", VStr "success");
                     ("message", VStr "Logged out successfully")] |}.

Definition logout : request -> Async.M DB response := route protect logout_handler.

(** Admin login. *)
Definition admin_login (req : request) : Async.M DB response :=
  Async.try_catch
    (if negb (truthy (body_field req "email"))
        || negb (truthy (body_field req "password")) then
       Async.ret
         {| status := 400;
            json := VObj [("status", VStr "error");
                          ("message", VStr "Please provide email and password")] |}
     else
       let invalid :=
         {| status := 401;
            json := VObj [("status", VStr "error");
                          ("message", VStr "Invalid admin credentials")] |} in
       found <- User.findOne [("email", body_field req "email");
                              ("role", VStr "admin")] PlusPassword ;;
       match found with
       | None => Async.ret invalid
       | Some user =>
           same <- User.comparePassword user (body_field req "password") ;;
           if negb same then Async.ret invalid
           else
             token <- Async.lift (sign_token user) ;;
             Async.ret
               {| status := 200;
                  json := VObj [("status", VStr "success");
                                ("token", VStr token);
                                ("data", VObj [("user", VObj [
                                   ("id", _id user);
                                   ("email", email user);
                                   ("firstName", firstName user);
                                   ("lastName", lastName user);
                                   ("role", role user)])])] |}
       end)
    (fun _ =>
       Async.ret
         {| status := 500;
            json := VObj [("status", VStr "error");
                          ("message", VStr "Error during admin login")] |}).

(** [x !== 'admin'] *)
Definition not_admin (x : value) : bool :=
  match x with
  | VStr s => negb (String.eqb s "admin")
  | _ => true
  end.

(** Admin logout (the handler behind [protect]); it has no [try] block, so
    a thrown error leaves the request unanswered. *)
Definition admin_logout_handler (req : request) : Async.M DB response :=
  r <- user_prop req role "role" ;;
  if not_admin r then
    Async.ret
      {| status := 403;
         json := VObj [("status", VStr "error");
                       ("message", VStr "Access denied. Admin only.")] |}
  else
    Async.ret
      {| status := 200;
         json := VObj [("status", VStr "success");
                       ("message", VStr "Admin logged out successfully")] |}.

Definition admin_logout : request -> Async.M DB response :=
  route protect admin_logout_handler.

End Routes.

(** ** The router *)

(** The endpoints mounted on the router, in source order. *)
Inductive endpoint : Type :=
| PostRegister
| PostLogin
| GetMe
| PostLogout
| PostAdminLogin
| PostAdminLogout.

(** Dispatch of a request to its route.  [/login] and [/admin/login] are
    mounted behind [authLimiter], which comes from [../middleware] and is not
    among the source files; the handlers are what runs once the limiter has
    called [next()]. *)
Definition router {L : Libs} (cfg : env) (now : Z) (e : endpoint)
  : request -> Async.M DB response :=
  match e with
  | PostRegister => register cfg now
  | PostLogin => login cfg now
  | GetMe => me cfg now
  | PostLogout => logout cfg now
  | PostAdminLogin => admin_login cfg now
  | PostAdminLogout => admin_logout cfg now
  end.

(** The endpoints that answer with a session token. *)
Definition issues_token (e : endpoint) : bool :=
  match e with
  | PostRegister | PostLogin | PostAdminLogin => true
  | _ => false
  end.

(** The endpoints that answer with a user object. *)
Definition returns_user (e : endpoint) : bool :=
  match e with
  | PostRegister | PostLogin | PostAdminLogin | GetMe => true
  | _ => false
  end.

(** ** Observations on responses and stores *)

(** A 2xx status. *)
Definition success (r : response) : bool :=
  (200 <=? status r) && (status r <? 300).

(** [body.data.user] of a response, when it is an object. *)
Definition returned_user (r : response) : option obj :=
  match field (json r) "data" with
  | Some d =>
      match field d "user" with
      | Some (VObj u) => Some u
      | _ => None
      end
  | None => None
  end.

(** [body.message] and [body.token]. *)
Definition message_of (r : response) : option value := field (json r) "message".
Definition token_of (r : response) : option value := field (json r) "token".

(** The response of a finished run, if the handler answered at all. *)
Definition answer {A} (run : result A * DB) : option A :=
  match fst run with
  | Ok a => Some a
  | Throw _ => None
  end.

(** The routes mounted behind [protect]. *)
Definition protected (e : endpoint) : bool :=
  match e with
  | GetMe | PostLogout | PostAdminLogout => true
  | _ => false
  end.

(** Whether the character [c] occurs in [s]. *)
Fixpoint contains (c : ascii) (s : string) : bool :=
  match s with
  | EmptyString => false
  | String a s' => Ascii.eqb a c || contains c s'
  end.

(** The data model's invariant on the store, for the emails the schema
    admits: no two identities share a string email. *)
Definition unique_emails (db : DB) : Prop :=
  forall u v, In u (users db) -> In v (users db) ->
              User.same_string (email u) (email v) = true -> u = v.

(** ** A reference instance of the libraries *)

(** A small executable stand-in for [jsonwebtoken] and the password hash, to
    run the routes on concrete requests.  A token is the payload's string
    claims followed by [iat] and [exp], then a dot and a keyed checksum. *)
Module Ref.

Definition digits (n : Z) : string :=
  NilZero.string_of_uint (N.to_uint (Z.to_N n)).

Definition number (s : string) : option Z :=
  option_map (fun u => Z.of_N (N.of_uint u)) (NilZero.uint_of_string s).

Definition mac (key text : string) : string :=
  digits (fold_left
            (fun acc c => (acc * 31 + Z.of_nat (nat_of_ascii c)) mod 1000003)
            (list_ascii_of_string (key ++ "/" ++ text)) 7).

Definition claim (kv : string * value) : list string :=
  match snd kv with
  | VStr s => [fst kv ++ "=" ++ s]
  | _ => []
  end.

(** A number of seconds, or a string such as [7d]. *)
Definition timespan (v : value) : option Z :=
  match v with
  | VNum n => Some n
  | VStr s =>
      match split "d"%char s with
      | [n; EmptyString] => option_map (fun d => d * 86400) (number n)
      | _ => None
      end
  | _ => None
  end.

Definition sign (payload : obj) (secret expiresIn : value) (now : Z)
  : result string :=
  match secret, timespan expiresIn with
  | VStr key, Some span =>
      if String.eqb key "" then Throw "secretOrPrivateKey must have a value"
      else
        let text := String.concat "&"
                      (flat_map claim payload
                         ++ ["iat=" ++ digits now; "exp=" ++ digits (now + span)]) in
        Ok (text ++ "." ++ mac key text)
  | VStr _, None =>
      Throw "expiresIn should be a number of seconds or string representing a timespan"
  | _, _ => Throw "secretOrPrivateKey must have a value"
  end.

Definition decode_claim (s : string) : option (string * value) :=
  match split "="%char s with
  | [k; v] =>
      if String.eqb k "iat" || String.eqb k "exp"
      then option_map (fun n => (k, VNum n)) (number v)
      else Some (k, VStr v)
  | _ => None
  end.

Fixpoint decode_claims (l : list string) : option obj :=
  match l with
  | [] => Some []
  | s :: l' =>
      match decode_claim s, decode_claims l' with
      | Some kv, Some o => Some (kv :: o)
      | _, _ => None
      end
  end.

Definition verify (token : string) (secret : value) (now : Z) : result obj :=
  match secret with
  | VStr key =>
      match split "."%char token with
      | [text; sig] =>
          if negb (String.eqb (mac key text) sig) then Throw "invalid signature"
          else
            match decode_claims (split "&"%char text) with
            | Some decoded =>
                match get decoded "exp" with
                | VNum exp =>
                    if exp <=? now then Throw "jwt expired" else Ok decoded
                | _ => Ok decoded
                end
            | None => Throw "jwt malformed"
            end
      | _ => Throw "jwt malformed"
      end
  | _ => Throw "secret or public key must be provided"
  end.

Definition hash (s : string) : string := "$2a$" ++ mac "salt" s.

Definition libs : Libs :=
  {| jwt_sign := sign;
     jwt_verify := verify;
     pw_hash := hash;
     pw_check := fun candidate h => String.eqb (hash candidate) h |}.

Definition cfg : env :=
  {| JWT_SECRET := VStr "your_jwt_secret_here"; JWT_EXPIRES_IN := VStr "7d" |}.

Definition empty : DB := {| users := []; seq := 0; down := None |}.

Definition post (fields : obj) : request :=
  {| authorization := None; body := fields; user := None |}.

Definition bearer (token : string) : request :=
  {| authorization := Some ("Bearer " ++ token); body := []; user := None |}.

(** A registration, the store it leaves behind, and a login. *)
Definition signup : request :=
  post [("email", VStr "asha@example.com"); ("password", VStr "Str0ng!Pass");
        ("firstName", VStr "Asha"); ("lastName", VStr "Rao");
        ("phone", VStr "+919876543210")].

Definition weak_signup : request :=
  post [("email", VStr "asha@example.com"); ("password", VStr "abc")].

Definition credentials : request :=
  post [("email", VStr "asha@example.com"); ("password", VStr "Str0ng!Pass")].

Definition asha : UserDoc :=
  {| _id := VStr "u0"; email := VStr "asha@example.com";
     password := VStr (hash "Str0ng!Pass");
     firstName := VStr "Asha"; lastName := VStr "Rao";
     role := VStr "customer"; phone := VStr "+919876543210";
     address := VUndef; languagePreference := VUndef;
     createdAt := VNum 1000; updatedAt := VNum 1000 |}.

Definition db1 : DB := {| users := [asha]; seq := 1; down := None |}.

(** The token [login] issues to [asha] at time 2000. *)
Definition session : string :=
  match sign [("id", VStr "u0")] (JWT_SECRET cfg) (JWT_EXPIRES_IN cfg) 2000 with
  | Ok t => t
  | Throw _ => ""
  end.

(** An administrator, and a store with both identities. *)
Definition root : UserDoc :=
  {| _id := VStr "u1"; email := VStr "root@example.com";
     password := VStr (hash "R00t!Pass");
     firstName := VStr "Ravi"; lastName := VStr "Iyer";
     role := VStr "admin"; phone := VStr "+919812345678";
     address := VUndef; languagePreference := VUndef;
     createdAt := VNum 1500; updatedAt := VNum 1500 |}.

Definition db2 : DB := {| users := [asha; root]; seq := 2; down := None |}.

Definition admin_credentials : request :=
  post [("email", VStr "root@example.com"); ("password", VStr "R00t!Pass")].

(** The token [admin_login] issues to [root] at time 2000. *)
Definition admin_session : string :=
  match sign [("id", VStr "u1")] (JWT_SECRET cfg) (JWT_EXPIRES_IN cfg) 2000 with
  | Ok t => t
  | Throw _ => ""
  end.

(** An environment in which [JWT_SECRET] is not set. *)
Definition unconfigured : env :=
  {| JWT_SECRET := VUndef; JWT_EXPIRES_IN := VStr "7d" |}.

(** A store that cannot be reached. *)
Definition outage : DB :=
  {| users := [asha]; seq := 1;
     down := Some "connect ECONNREFUSED 127.0.0.1:27017" |}.

End Ref.


(** * Properties *)

(** ** Reading the bearer token *)

Example bearer_token_plain :
  bearer_token (Ref.bearer "abc.def") = Some "abc.def".
Proof. reflexivity. Qed.

Example bearer_token_no_header : bearer_token (Ref.post []) = None.
Proof. reflexivity. Qed.

Example bearer_token_scheme_only :
  bearer_token {| authorization := Some "Bearer"; body := []; user := None |} = None.
Proof. reflexivity. Qed.

Example bearer_token_two_spaces :
  no_token (bearer_token
              {| authorization := Some "Bearer  abc"; body := []; user := None |})
  = true.
Proof. reflexivity. Qed.

Example bearer_token_other_scheme :
  bearer_token {| authorization := Some "Basic abc"; body := []; user := None |} = None.
Proof. reflexivity. Qed.

Example split_spaces : split " "%char "a b  c" = ["a"; "b"; ""; "c"].
Proof. reflexivity. Qed.

(** ** The store operations *)

Lemma findOne_down filter sel db msg :
  down db = Some msg -> User.findOne filter sel db = (Throw msg, db).
Proof. intros H. unfold User.findOne. rewrite H. reflexivity. Qed.

Lemma findOne_up filter sel db :
  down db = None ->
  User.findOne filter sel db
  = (Ok (option_map (User.project sel) (find (User.matches filter) (users db))), db).
Proof. intros H. unfold User.findOne. rewrite H. reflexivity. Qed.

Lemma findOne_keeps_store filter sel db : snd (User.findOne filter sel db) = db.
Proof. unfold User.findOne. destruct (down db); reflexivity. Qed.

Lemma matches_email u e :
  User.matches [("email", VStr e)] u = User.same_string (email u) (VStr e).
Proof. unfold User.matches. simpl. apply andb_true_r. Qed.

Lemma same_string_eq a e : User.same_string a (VStr e) = true <-> a = VStr e.
Proof.
  destruct a; simpl; split; try discriminate.
  - intros H. apply String.eqb_eq in H. now subst.
  - intros H. injection H as ->. apply String.eqb_refl.
Qed.

(** An identity with the queried email makes the lookup by email succeed. *)
Lemma find_by_email_some db u e :
  In u (users db) -> email u = VStr e ->
  exists v, find (User.matches [("email", VStr e)]) (users db) = Some v
            /\ In v (users db) /\ email v = VStr e.
Proof.
  intros Hin He.
  destruct (find (User.matches [("email", VStr e)]) (users db)) as [v|] eqn:F.
  - exists v. apply find_some in F. destruct F as [Hv Hm].
    rewrite matches_email in Hm. apply same_string_eq in Hm. auto.
  - exfalso. apply (find_none _ _ F) in Hin.
    rewrite matches_email in Hin.
    assert (User.same_string (email u) (VStr e) = true) by now apply same_string_eq.
    congruence.
Qed.

(** Under the uniqueness invariant the lookup returns that very identity. *)
Lemma find_by_email_unique db u e :
  unique_emails db -> In u (users db) -> email u = VStr e ->
  find (User.matches [("email", VStr e)]) (users db) = Some u.
Proof.
  intros Huniq Hin He.
  destruct (find_by_email_some db u e Hin He) as (v & F & Hv & Hve).
  rewrite F. f_equal. apply Huniq; auto.
  rewrite He. now apply same_string_eq.
Qed.

(** ** The [protect] middleware *)

Section Protect.

Context {L : Libs}.
Variable cfg : env.
Variable now : Z.

(** [protect], case by case. *)
Lemma protect_unfold req db :
  protect cfg now req db =
  match bearer_token req with
  | None => (Ok (Respond not_authorized), db)
  | Some t =>
      if String.eqb t "" then (Ok (Respond not_authorized), db)
      else
        match jwt_verify t (JWT_SECRET cfg) now, down db with
        | Ok decoded, None =>
            (Ok (Next (set_user req
                         (option_map User.without_password
                            (find (User.matches [("_id", get decoded "id")])
                                  (users db))))), db)
        | _, _ => (Ok (Respond not_authorized), db)
        end
  end.
Proof.
  unfold protect, Async.try_catch, Async.bind, Async.lift, Async.ret.
  destruct (bearer_token req) as [t|]; simpl; [|reflexivity].
  destruct (String.eqb t ""); [reflexivity|].
  destruct (jwt_verify t (JWT_SECRET cfg) now) as [decoded|msg]; simpl.
  - unfold User.findById, User.findOne.
    destruct (down db); reflexivity.
  - destruct (down db); reflexivity.
Qed.

(** [protect] never touches the store and never lets an error escape. *)
Lemma protect_keeps_store req db : snd (protect cfg now req db) = db.
Proof.
  rewrite protect_unfold.
  destruct (bearer_token req) as [t|]; [|reflexivity].
  destruct (String.eqb t ""); [reflexivity|].
  destruct (jwt_verify t (JWT_SECRET cfg) now); destruct (down db); reflexivity.
Qed.

Lemma protect_answers req db :
  (exists req', fst (protect cfg now req db) = Ok (Next req'))
  \/ fst (protect cfg now req db) = Ok (Respond not_authorized).
Proof.
  rewrite protect_unfold.
  destruct (bearer_token req) as [t|]; [|now right].
  destruct (String.eqb t ""); [now right|].
  destruct (jwt_verify t (JWT_SECRET cfg) now); destruct (down db);
    try (now right).
  left. eexists. reflexivity.
Qed.

(** The failure kinds of the token service all end in a rejection. *)
Lemma protect_rejects_missing req db :
  no_token (bearer_token req) = true ->
  protect cfg now req db = (Ok (Respond not_authorized), db).
Proof.
  intros H. rewrite protect_unfold.
  destruct (bearer_token req) as [t|]; [|reflexivity].
  simpl in H. rewrite H. reflexivity.
Qed.

Lemma protect_rejects_unverified req db t msg :
  bearer_token req = Some t ->
  jwt_verify t (JWT_SECRET cfg) now = Throw msg ->
  protect cfg now req db = (Ok (Respond not_authorized), db).
Proof.
  intros Ht Hv. rewrite protect_unfold, Ht, Hv.
  destruct (String.eqb t ""); reflexivity.
Qed.

(** What an accepted request went through. *)
Lemma protect_next_inv req db req' :
  fst (protect cfg now req db) = Ok (Next req') ->
  exists t decoded,
    bearer_token req = Some t /\ String.eqb t "" = false
    /\ jwt_verify t (JWT_SECRET cfg) now = Ok decoded
    /\ down db = None
    /\ req' = set_user req
                (option_map User.without_password
                   (find (User.matches [("_id", get decoded "id")]) (users db))).
Proof.
  rewrite protect_unfold.
  destruct (bearer_token req) as [t|]; [|discriminate].
  destruct (String.eqb t "") eqn:E; [discriminate|].
  destruct (jwt_verify t (JWT_SECRET cfg) now) as [decoded|] eqn:V; [|discriminate].
  destruct (down db) eqn:D; [discriminate|].
  simpl. intros H. injection H as <-.
  exists t, decoded. repeat split; auto.
Qed.

End Protect.

(** C4: any two requests that [protect] rejects, whatever the reason (no
    bearer token, a malformed token, a bad signature, an expired token),
    receive the same response: status 401 with the one generic message. *)
Theorem protect_rejections_identical {L : Libs}
  (cfg1 cfg2 : env) (now1 now2 : Z) (req1 req2 : request) (s1 s2 : DB)
  (r1 r2 : response) :
  fst (protect cfg1 now1 req1 s1) = Ok (Respond r1) ->
  fst (protect cfg2 now2 req2 s2) = Ok (Respond r2) ->
  r1 = r2 /\ status r1 = 401
  /\ message_of r1 = Some (VStr "Not authorized to access this route").
Proof.
  intros H1 H2.
  assert (E1 : r1 = not_authorized).
  { destruct (protect_answers cfg1 now1 req1 s1) as [[q Hq]|Hr]; congruence. }
  assert (E2 : r2 = not_authorized).
  { destruct (protect_answers cfg2 now2 req2 s2) as [[q Hq]|Hr]; congruence. }
  subst. repeat split.
Qed.

(** A request without a header and a request with an expired token. *)
Lemma protect_rejections_identical_witness :
  fst (protect (L := Ref.libs) Ref.cfg 3000 (Ref.post []) Ref.db1)
    = Ok (Respond not_authorized)
  /\ fst (protect (L := Ref.libs) Ref.cfg 700000 (Ref.bearer Ref.session) Ref.db1)
    = Ok (Respond not_authorized)
  /\ (not_authorized = not_authorized /\ status not_authorized = 401
      /\ message_of not_authorized
         = Some (VStr "Not authorized to access this route")).
Proof.
  split; [vm_compute; reflexivity|].
  split; [vm_compute; reflexivity|].
  apply (protect_rejections_identical (L := Ref.libs)
           Ref.cfg Ref.cfg 3000 700000 (Ref.post []) (Ref.bearer Ref.session)
           Ref.db1 Ref.db1);
    vm_compute; reflexivity.
Defined.

(** ** Logout *)

(** The claim of C1 fails: [asha] logs in at time 2000 and is issued
    [Ref.session]; she logs out with it at time 3000; at time 4000 the token
    still verifies and [protect] lets the request through instead of
    answering 401. *)
Lemma logout_does_not_revoke_cex :
  option_map token_of
    (answer (login (L := Ref.libs) Ref.cfg 2000 Ref.credentials Ref.db1))
    = Some (Some (VStr Ref.session))
  /\ logout (L := Ref.libs) Ref.cfg 3000 (Ref.bearer Ref.session) Ref.db1
     = (Ok {| status := 200;
              json := VObj [("status", VStr "success");
                            ("message", VStr "Logged out successfully")] |},
        Ref.db1)
  /\ fst (protect (L := Ref.libs) Ref.cfg 4000 (Ref.bearer Ref.session) Ref.db1)
     = Ok (Next (set_user (Ref.bearer Ref.session)
                          (Some (User.without_password Ref.asha))))
  /\ fst (protect (L := Ref.libs) Ref.cfg 4000 (Ref.bearer Ref.session) Ref.db1)
     <> Ok (Respond not_authorized).
Proof.
  repeat split; try (vm_compute; reflexivity).
  vm_compute. discriminate.
Qed.

(** C1, amended: logout is a placeholder.  For a request whose bearer token
    verifies, with the store up, [/logout] answers 200 'Logged out
    successfully' and leaves the store as it was; nothing records the token.
    Any later request presenting the same token, while the token still
    verifies, is accepted by [protect], exactly as it would have been
    without the logout. *)
Theorem logout_keeps_token_valid {L : Libs}
  (cfg : env) (now later : Z) (req req' : request) (db : DB)
  (t : string) (decoded decoded' : obj) :
  bearer_token req = Some t -> t <> "" ->
  jwt_verify t (JWT_SECRET cfg) now = Ok decoded ->
  down db = None ->
  bearer_token req' = Some t ->
  jwt_verify t (JWT_SECRET cfg) later = Ok decoded' ->
  logout cfg now req db
  = (Ok {| status := 200;
           json := VObj [("status", VStr "success");
                         ("message", VStr "Logged out successfully")] |}, db)
  /\ (exists q,
        protect cfg later req' (snd (logout cfg now req db))
        = (Ok (Next q), snd (logout cfg now req db)))
  /\ protect cfg later req' (snd (logout cfg now req db))
     = protect cfg later req' db.
Proof.
  intros Ht Hne Hv Hup Ht' Hv'.
  apply String.eqb_neq in Hne.
  assert (E : logout cfg now req db
              = (Ok {| status := 200;
                       json := VObj [("status", VStr "success");
                                     ("message", VStr "Logged out successfully")] |},
                 db)).
  { unfold logout, route, Async.bind.
    rewrite protect_unfold, Ht, Hne, Hv, Hup. reflexivity. }
  rewrite E. simpl snd. split; [reflexivity|]. split; [|reflexivity].
  rewrite protect_unfold, Ht', Hne, Hv', Hup.
  eexists. reflexivity.
Qed.

(** [asha] logs out at time 3000; a different request with her token at time
    4000. *)
Lemma logout_keeps_token_valid_witness :
  logout (L := Ref.libs) Ref.cfg 3000 (Ref.bearer Ref.session) Ref.db1
  = (Ok {| status := 200;
           json := VObj [("status", VStr "success");
                         ("message", VStr "Logged out successfully")] |}, Ref.db1)
  /\ (exists q,
        protect (L := Ref.libs) Ref.cfg 4000
          {| authorization := Some ("Bearer " ++ Ref.session);
             body := [("page", VNum 2)]; user := None |}
          (snd (logout (L := Ref.libs) Ref.cfg 3000 (Ref.bearer Ref.session) Ref.db1))
        = (Ok (Next q),
           snd (logout (L := Ref.libs) Ref.cfg 3000 (Ref.bearer Ref.session) Ref.db1)))
  /\ protect (L := Ref.libs) Ref.cfg 4000
       {| authorization := Some ("Bearer " ++ Ref.session);
          body := [("page", VNum 2)]; user := None |}
       (snd (logout (L := Ref.libs) Ref.cfg 3000 (Ref.bearer Ref.session) Ref.db1))
     = protect (L := Ref.libs) Ref.cfg 4000
         {| authorization := Some ("Bearer " ++ Ref.session);
            body := [("page", VNum 2)]; user := None |}
         Ref.db1.
Proof.
  apply (logout_keeps_token_valid (L := Ref.libs) Ref.cfg 3000 4000
           (Ref.bearer Ref.session)
           {| authorization := Some ("Bearer " ++ Ref.session);
              body := [("page", VNum 2)]; user := None |}
           Ref.db1 Ref.session
           [("id", VStr "u0"); ("iat", VNum 2000); ("exp", VNum 606800)]
           [("id", VStr "u0"); ("iat", VNum 2000); ("exp", VNum 606800)]).
  - reflexivity.
  - vm_compute. discriminate.
  - vm_compute. reflexivity.
  - reflexivity.
  - reflexivity.
  - vm_compute. reflexivity.
Defined.

(** ** A token whose subject is gone *)

(** When the token verifies and the store holds no identity with the
    decoded id, [protect] calls [next()] with [req.user] set to [null]. *)
Lemma protect_next_without_subject {L : Libs}
  (cfg : env) (now : Z) (req : request) (db : DB) (t : string) (decoded : obj) :
  bearer_token req = Some t -> t <> "" ->
  jwt_verify t (JWT_SECRET cfg) now = Ok decoded ->
  down db = None ->
  find (User.matches [("_id", get decoded "id")]) (users db) = None ->
  protect cfg now req db = (Ok (Next (set_user req None)), db).
Proof.
  intros Ht Hne Hv Hup Hf.
  rewrite protect_unfold, Ht, Hv, Hup, Hf.
  apply String.eqb_neq in Hne. rewrite Hne. reflexivity.
Qed.

(** C3: the code at the failing input.  [Ref.session] verifies at time 3000
    and names [u0]; the store holds no identity.  [protect] does not answer
    401: it continues with [req.user = null], so [/logout] answers 200 and
    [/me] runs into a [TypeError] and answers 500. *)
Theorem protect_continues_without_subject :
  Ref.verify Ref.session (JWT_SECRET Ref.cfg) 3000
    = Ok [("id", VStr "u0"); ("iat", VNum 2000); ("exp", VNum 606800)]
  /\ protect (L := Ref.libs) Ref.cfg 3000 (Ref.bearer Ref.session) Ref.empty
     = (Ok (Next (set_user (Ref.bearer Ref.session) None)), Ref.empty)
  /\ option_map status
       (answer (logout (L := Ref.libs) Ref.cfg 3000 (Ref.bearer Ref.session) Ref.empty))
     = Some 200
  /\ option_map status
       (answer (me (L := Ref.libs) Ref.cfg 3000 (Ref.bearer Ref.session) Ref.empty))
     = Some 500.
Proof. repeat split; vm_compute; reflexivity. Qed.

(** ** Registration *)

(** C6: a registration whose email is the email of a stored identity is
    answered with status 400 and leaves the store exactly as it was; with
    the store up, the message is 'User already exists'. *)
Theorem register_rejects_duplicate_email {L : Libs}
  (cfg : env) (now : Z) (req : request) (db : DB) (e : string) (u : UserDoc) :
  body_field req "email" = VStr e ->
  In u (users db) ->
  email u = VStr e ->
  exists r,
    register cfg now req db = (Ok r, db)
    /\ status r = 400
    /\ (down db = None -> message_of r = Some (VStr "User already exists")).
Proof.
  intros Hb Hin He.
  unfold register, Async.try_catch, Async.bind. rewrite Hb.
  destruct (down db) as [msg|] eqn:D.
  - rewrite (findOne_down _ _ _ msg D). simpl.
    eexists. repeat split. discriminate.
  - rewrite (findOne_up _ _ _ D).
    destruct (find_by_email_some db u e Hin He) as (v & F & _).
    rewrite F. simpl.
    eexists. repeat split.
Qed.

Lemma register_rejects_duplicate_email_witness :
  exists r,
    register (L := Ref.libs) Ref.cfg 5000 Ref.signup Ref.db1 = (Ok r, Ref.db1)
    /\ status r = 400
    /\ (down Ref.db1 = None -> message_of r = Some (VStr "User already exists")).
Proof.
  apply (register_rejects_duplicate_email (L := Ref.libs) Ref.cfg 5000
           Ref.signup Ref.db1 "asha@example.com" Ref.asha).
  - reflexivity.
  - simpl. left. reflexivity.
  - reflexivity.
Defined.

(** C2: the code at the failing input.  A registration with the password
    [abc] on an empty store is answered 201 with a token, and the identity is
    created: the route checks nothing about the password. *)
Theorem register_accepts_weak_password :
  option_map status
    (answer (register (L := Ref.libs) Ref.cfg 1000 Ref.weak_signup Ref.empty))
    = Some 201
  /\ option_map message_of
       (answer (register (L := Ref.libs) Ref.cfg 1000 Ref.weak_signup Ref.empty))
     = Some None
  /\ map email
       (users (snd (register (L := Ref.libs) Ref.cfg 1000 Ref.weak_signup Ref.empty)))
     = [VStr "asha@example.com"].
Proof. repeat split; vm_compute; reflexivity. Qed.

(** ** Store failures *)

(** With the store down, [/login] answers 400 and hands the store's error
    message to the caller. *)
Lemma login_store_failure {L : Libs}
  (cfg : env) (now : Z) (req : request) (db : DB) (msg : string) :
  truthy (body_field req "email") = true ->
  truthy (body_field req "password") = true ->
  down db = Some msg ->
  login cfg now req db
  = (Ok {| status := 400;
           json := VObj [("status", VStr "error"); ("message", VStr msg)] |}, db).
Proof.
  intros He Hp D.
  unfold login, Async.try_catch, Async.bind. rewrite He, Hp. simpl.
  rewrite (findOne_down _ _ _ msg D). reflexivity.
Qed.

(** With the store down, [/register] does the same. *)
Lemma register_store_failure {L : Libs}
  (cfg : env) (now : Z) (req : request) (db : DB) (msg : string) :
  down db = Some msg ->
  register cfg now req db
  = (Ok {| status := 400;
           json := VObj [("status", VStr "error"); ("message", VStr msg)] |}, db).
Proof.
  intros D.
  unfold register, Async.try_catch, Async.bind.
  rewrite (findOne_down _ _ _ msg D). reflexivity.
Qed.

(** The sibling route [/admin/login] answers 500 with a fixed message. *)
Lemma admin_login_store_failure {L : Libs}
  (cfg : env) (now : Z) (req : request) (db : DB) (msg : string) :
  truthy (body_field req "email") = true ->
  truthy (body_field req "password") = true ->
  down db = Some msg ->
  admin_login cfg now req db
  = (Ok {| status := 500;
           json := VObj [("status", VStr "error");
                         ("message", VStr "Error during admin login")] |}, db).
Proof.
  intros He Hp D.
  unfold admin_login, Async.try_catch, Async.bind. rewrite He, Hp. simpl.
  rewrite (findOne_down _ _ _ msg D). reflexivity.
Qed.

(** C8: the code at the failing input.  The store refuses the connection;
    [/login] and [/register] answer 400 with the store's own error text in
    the body, [protect] answers 401, and only [/admin/login] answers 500
    with a fixed message. *)
Theorem store_failure_surfaces_as_400 :
  login (L := Ref.libs) Ref.cfg 2000 Ref.credentials Ref.outage
  = (Ok {| status := 400;
           json := VObj [("status", VStr "error");
                         ("message", VStr "connect ECONNREFUSED 127.0.0.1:27017")] |},
     Ref.outage)
  /\ register (L := Ref.libs) Ref.cfg 2000 Ref.signup Ref.outage
     = (Ok {| status := 400;
              json := VObj [("status", VStr "error");
                            ("message", VStr "connect ECONNREFUSED 127.0.0.1:27017")] |},
        Ref.outage)
  /\ option_map status
       (answer (me (L := Ref.libs) Ref.cfg 3000 (Ref.bearer Ref.session) Ref.outage))
     = Some 401
  /\ admin_login (L := Ref.libs) Ref.cfg 2000 Ref.credentials Ref.outage
     = (Ok {| status := 500;
              json := VObj [("status", VStr "error");
                            ("message", VStr "Error during admin login")] |},
        Ref.outage).
Proof. repeat split; vm_compute; reflexivity. Qed.

(** ** What the answers contain *)

(** Case analysis on a finished run: split on every call whose result the
    handler branches on. *)
Ltac run_cases H :=
  repeat match type of H with
         | context [match ?x with _ => _ end] =>
             lazymatch x with
             | context [match _ with _ => _ end] => fail
             | _ => let E := fresh "E" in destruct x eqn:E; simpl in H
             end
         end.

(** The user object of a login-like answer. *)
Lemma login_like_omits_password (r : response) (t : string) (u : UserDoc) (c : Z) :
  r = {| status := c;
         json := VObj [("status", VStr "success"); ("token", VStr t);
                       ("data", VObj [("user", VObj [
                          ("id", _id u); ("email", email u);
                          ("firstName", firstName u); ("lastName", lastName u);
                          ("role", role u)])])] |} ->
  exists o, returned_user r = Some o /\ lookup o "password" = None.
Proof. intros ->. eexists. split; reflexivity. Qed.

(** C5: every successful answer of register, login, admin login and the
    profile endpoint carries a user object, and that object has no
    [password] field. *)
Theorem responses_omit_password {L : Libs}
  (cfg : env) (now : Z) (e : endpoint) (req : request) (db : DB) (r : response) :
  returns_user e = true ->
  answer (router cfg now e req db) = Some r ->
  success r = true ->
  exists o, returned_user r = Some o /\ lookup o "password" = None.
Proof.
  intros He Hrun Hok.
  destruct e; try discriminate He; clear He; unfold answer, router in Hrun.
  - unfold register, Async.try_catch, Async.bind, Async.lift, Async.ret in Hrun.
    run_cases Hrun; try discriminate Hrun; injection Hrun as <-;
      try discriminate Hok.
    eapply login_like_omits_password; reflexivity.
  - unfold login, Async.try_catch, Async.bind, Async.lift, Async.ret in Hrun.
    run_cases Hrun; try discriminate Hrun; injection Hrun as <-;
      try discriminate Hok.
    eapply login_like_omits_password; reflexivity.
  - unfold me, route, me_handler, Async.try_catch, Async.bind, Async.ret in Hrun.
    run_cases Hrun; try discriminate Hrun; injection Hrun as <-;
      try discriminate Hok.
    + eexists. split; reflexivity.
    + destruct (protect_answers cfg now req db) as [[q Hq]|Hr];
        rewrite E in *; simpl in *; [discriminate|].
      injection Hr as ->. discriminate Hok.
  - unfold admin_login, Async.try_catch, Async.bind, Async.lift, Async.ret in Hrun.
    run_cases Hrun; try discriminate Hrun; injection Hrun as <-;
      try discriminate Hok.
    eapply login_like_omits_password; reflexivity.
Qed.

Lemma responses_omit_password_witness :
  exists r,
    answer (router (L := Ref.libs) Ref.cfg 3000 GetMe (Ref.bearer Ref.session) Ref.db1)
      = Some r
    /\ success r = true
    /\ exists o, returned_user r = Some o /\ lookup o "password" = None.
Proof.
  eexists. split; [vm_compute; reflexivity|]. split; [reflexivity|].
  apply (responses_omit_password (L := Ref.libs) Ref.cfg 3000 GetMe
           (Ref.bearer Ref.session) Ref.db1);
    [reflexivity | vm_compute; reflexivity | reflexivity].
Defined.

(** ** Session tokens *)

Lemma findOne_some_inv filter db u d :
  User.findOne filter PlusPassword db = (Ok (Some u), d) ->
  d = db /\ In u (users db) /\ User.matches filter u = true.
Proof.
  unfold User.findOne. destruct (down db); [discriminate|].
  destruct (find (User.matches filter) (users db)) as [v|] eqn:F; simpl;
    [|discriminate].
  intros H. injection H as <- <-. apply find_some in F. tauto.
Qed.

Lemma comparePassword_keeps_store {L : Libs} u candidate db r d :
  User.comparePassword u candidate db = (r, d) -> d = db.
Proof.
  unfold User.comparePassword, Async.ret, Async.throw.
  destruct (password u); destruct candidate; intros H; injection H as _ <-;
    reflexivity.
Qed.

Lemma create_some_inv {L : Libs} fields now db u d :
  User.create fields now db = (Ok u, d) ->
  users d = (users db ++ [u])%list
  /\ email u = get fields "email"
  /\ existsb (fun v => User.same_string (email v) (get fields "email")) (users db)
     = false.
Proof.
  unfold User.create. destruct (down db); [discriminate|].
  destruct (existsb _ (users db)) eqn:X; [discriminate|].
  intros H. injection H as <- <-. simpl. auto.
Qed.




(** ** Credentials *)

Lemma matches_email_role u e ro :
  User.matches [("email", VStr e); ("role", VStr ro)] u
  = User.same_string (email u) (VStr e) && User.same_string (role u) (VStr ro).
Proof. unfold User.matches. simpl. now rewrite andb_true_r. Qed.

(** Under the uniqueness invariant, the email of a non-admin identity is the
    email of no admin. *)
Lemma find_admin_none db u e :
  unique_emails db -> In u (users db) -> email u = VStr e ->
  role u <> VStr "admin" ->
  find (User.matches [("email", VStr e); ("role", VStr "admin")]) (users db) = None.
Proof.
  intros Huniq Hin He Hrole.
  destruct (find _ (users db)) as [v|] eqn:F; [exfalso|reflexivity].
  apply find_some in F. destruct F as [Hv Hm].
  rewrite matches_email_role in Hm. apply andb_prop in Hm. destruct Hm as [Hme Hmr].
  apply same_string_eq in Hmr.
  assert (v = u) by (apply Huniq; auto; rewrite He; exact Hme).
  subst v. contradiction.
Qed.

Lemma truthy_nonempty s : s <> "" -> truthy (VStr s) = true.
Proof. intros H. simpl. apply String.eqb_neq in H. now rewrite H. Qed.

(** C9: admin login with the email of an identity that is not an admin is
    answered 401 'Invalid admin credentials', carries no token and leaves the
    store alone, even when the password is the right one for that
    identity. *)
Theorem admin_login_rejects_non_admin {L : Libs}
  (cfg : env) (now : Z) (req : request) (db : DB) (e p : string) (u : UserDoc) :
  down db = None ->
  unique_emails db ->
  In u (users db) ->
  email u = VStr e ->
  role u <> VStr "admin" ->
  body_field req "email" = VStr e -> e <> "" ->
  body_field req "password" = VStr p -> p <> "" ->
  User.comparePassword u (VStr p) db = (Ok true, db) ->
  exists r,
    admin_login cfg now req db = (Ok r, db)
    /\ status r = 401
    /\ message_of r = Some (VStr "Invalid admin credentials")
    /\ token_of r = None.
Proof.
  intros Hup Huniq Hin He Hrole Hbe Hne Hbp Hnp _.
  unfold admin_login, Async.try_catch, Async.bind.
  rewrite Hbe, Hbp, (truthy_nonempty e Hne), (truthy_nonempty p Hnp). simpl.
  rewrite (findOne_up _ _ _ Hup), (find_admin_none db u e Huniq Hin He Hrole).
  simpl. eexists. repeat split.
Qed.



Lemma unique_emails_db1 : unique_emails Ref.db1.
Proof. intros u v [<-|[]] [<-|[]] _. reflexivity. Qed.

Lemma admin_login_rejects_non_admin_witness :
  exists r,
    admin_login (L := Ref.libs) Ref.cfg 2000 Ref.credentials Ref.db1 = (Ok r, Ref.db1)
    /\ status r = 401
    /\ message_of r = Some (VStr "Invalid admin credentials")
    /\ token_of r = None.
Proof.
  apply (admin_login_rejects_non_admin (L := Ref.libs) Ref.cfg 2000
           Ref.credentials Ref.db1 "asha@example.com" "Str0ng!Pass" Ref.asha).
  - reflexivity.
  - exact unique_emails_db1.
  - simpl. left. reflexivity.
  - reflexivity.
  - discriminate.
  - reflexivity.
  - discriminate.
  - reflexivity.
  - discriminate.
  - vm_compute. reflexivity.
Defined.


(** ** The uniqueness invariant *)

Lemma same_string_sym a b : User.same_string a b = User.same_string b a.
Proof. destruct a, b; simpl; try reflexivity. apply String.eqb_sym. Qed.

Lemma create_throw_keeps_store {L : Libs} fields now db msg d :
  User.create fields now db = (Throw msg, d) -> d = db.
Proof.
  unfold User.create. destruct (down db).
  - intros H. now injection H as _ <-.
  - destruct (existsb _ (users db)); [|discriminate].
    intros H. now injection H as _ <-.
Qed.

Lemma create_preserves_unique_emails {L : Libs} fields now db u d :
  unique_emails db -> User.create fields now db = (Ok u, d) -> unique_emails d.
Proof.
  intros Huniq Hc. apply create_some_inv in Hc. destruct Hc as (Hu & He & Hx).
  assert (Hfresh : forall v, In v (users db) ->
                             User.same_string (email v) (email u) = false).
  { intros v Hv. rewrite He.
    destruct (User.same_string (email v) (get fields "email")) eqn:S; [|reflexivity].
    assert (existsb (fun w => User.same_string (email w) (get fields "email"))
                    (users db) = true)
      by (apply existsb_exists; eauto).
    congruence. }
  intros x y Hx' Hy' Hs. rewrite Hu in Hx', Hy'.
  apply in_app_or in Hx'. apply in_app_or in Hy'.
  destruct Hx' as [Hx'|[<-|[]]]; destruct Hy' as [Hy'|[<-|[]]].
  - now apply Huniq.
  - rewrite (Hfresh x Hx') in Hs. discriminate.
  - rewrite same_string_sym, (Hfresh y Hy') in Hs. discriminate.
  - reflexivity.
Qed.

(** Registration keeps [unique_emails]. *)
Lemma register_preserves_unique_emails {L : Libs}
  (cfg : env) (now : Z) (req : request) (db : DB) :
  unique_emails db -> unique_emails (snd (register cfg now req db)).
Proof.
  intros Huniq.
  destruct (register cfg now req db) as [res d] eqn:R. simpl.
  unfold register, Async.try_catch, Async.bind, Async.lift, Async.ret in R.
  run_cases R; injection R as <- <-;
    repeat match goal with
    | H : User.findOne ?f ?s ?x = (_, ?y) |- _ =>
        let K := fresh in
        pose proof (findOne_keeps_store f s x) as K; rewrite H in K;
        simpl in K; subst y; clear H
    | H : User.create _ _ _ = (Throw _, _) |- _ =>
        apply create_throw_keeps_store in H; subst
    end;
    try assumption;
    eapply create_preserves_unique_emails; eauto.
Qed.

(** * Further properties of the routes *)

(** ** The authorization header *)

Lemma append_nil_r (s : string) : s ++ "" = s.
Proof. induction s as [|a s IH]; simpl; [reflexivity|now rewrite IH]. Qed.

Lemma split_without_separator c s : contains c s = false -> split c s = [s].
Proof.
  induction s as [|a s IH]; simpl; [reflexivity|].
  intros H. apply orb_false_elim in H. destruct H as [Ha Hs].
  rewrite Ha, (IH Hs). reflexivity.
Qed.

Lemma split_at_separator c a b :
  contains c a = false -> split c (a ++ String c b) = a :: split c b.
Proof.
  induction a as [|x a IH]; simpl.
  - intros _. now rewrite Ascii.eqb_refl.
  - intros H. apply orb_false_elim in H. destruct H as [Hx Ha].
    rewrite Hx, (IH Ha). reflexivity.
Qed.

(** X1: a header made of the word Bearer (or any space-free word that begins
    with it), one space and a space-free token yields that token; whatever
    follows a second space is ignored. *)
Theorem bearer_token_of_header (req : request) (s t tail : string) :
  contains " " s = false ->
  contains " " t = false ->
  t <> "" ->
  tail = "" \/ (exists rest, tail = " " ++ rest) ->
  authorization req = Some ("Bearer" ++ s ++ " " ++ t ++ tail) ->
  bearer_token req = Some t /\ no_token (bearer_token req) = false.
Proof.
  intros Hs Ht Hne Htail Hauth.
  assert (E : bearer_token req = Some t).
  { unfold bearer_token. rewrite Hauth.
    change ("Bearer" ++ s ++ " " ++ t ++ tail)
      with (("Bearer" ++ s) ++ String " " (t ++ tail)).
    assert (Hp : startsWith (("Bearer" ++ s) ++ String " " (t ++ tail)) "Bearer" = true).
    { unfold startsWith. simpl.
      repeat (destruct (ascii_dec _ _) as [_|N]; [|now elim N]).
      destruct (s ++ String " " (t ++ tail)); reflexivity. }
    rewrite Hp. simpl negb. simpl andb.
    rewrite split_at_separator by (simpl; exact Hs).
    simpl. destruct Htail as [->|[rest ->]].
    - rewrite append_nil_r.
      now rewrite (split_without_separator _ _ Ht).
    - change (t ++ " " ++ rest) with (t ++ String " " rest).
      now rewrite (split_at_separator _ _ _ Ht). }
  split; [exact E|].
  rewrite E. simpl. now apply String.eqb_neq.
Qed.

Lemma bearer_token_of_header_witness :
  bearer_token
    {| authorization := Some "Bearer abc.def trailing words";
       body := []; user := None |} = Some "abc.def"
  /\ no_token
       (bearer_token
          {| authorization := Some "Bearer abc.def trailing words";
             body := []; user := None |}) = false.
Proof.
  apply (bearer_token_of_header _ "" "abc.def" " trailing words").
  - reflexivity.
  - reflexivity.
  - discriminate.
  - right. exists "trailing words". reflexivity.
  - reflexivity.
Defined.

(** ** What [protect] lets through *)

(** X2: [protect] calls [next()] exactly when the header carries a non-empty
    bearer token, [jwt.verify] accepts it and the lookup of the subject does
    not fail; whether an identity was found plays no part. *)
Theorem protect_accepts_iff {L : Libs}
  (cfg : env) (now : Z) (req : request) (db : DB) :
  (exists req', fst (protect cfg now req db) = Ok (Next req'))
  <-> (exists t decoded,
          bearer_token req = Some t /\ t <> ""
          /\ jwt_verify t (JWT_SECRET cfg) now = Ok decoded
          /\ down db = None).
Proof.
  rewrite protect_unfold. split.
  - intros [q H].
    destruct (bearer_token req) as [t|]; [|discriminate].
    destruct (String.eqb t "") eqn:E; [discriminate|].
    destruct (jwt_verify t (JWT_SECRET cfg) now) as [decoded|] eqn:V;
      [|discriminate].
    destruct (down db) eqn:D; [discriminate|].
    exists t, decoded. repeat split; auto. now apply String.eqb_neq.
  - intros (t & decoded & Ht & Hne & Hv & Hup).
    rewrite Ht, Hv, Hup. apply String.eqb_neq in Hne. rewrite Hne.
    eexists. reflexivity.
Qed.

(** X3: the request [protect] hands on differs from the incoming one in
    [req.user] only, and a user found there is a stored identity with the
    password hash left out. *)
Theorem protect_hides_password {L : Libs}
  (cfg : env) (now : Z) (req req' : request) (db : DB) :
  fst (protect cfg now req db) = Ok (Next req') ->
  authorization req' = authorization req
  /\ body req' = body req
  /\ forall u, user req' = Some u ->
               password u = VUndef
               /\ exists v, In v (users db) /\ u = User.without_password v.
Proof.
  intros H.
  destruct (protect_next_inv cfg now req db req' H)
    as (t & decoded & _ & _ & _ & _ & ->).
  simpl. split; [reflexivity|]. split; [reflexivity|].
  intros u Hu.
  destruct (find _ (users db)) as [v|] eqn:F; simpl in Hu; [|discriminate].
  injection Hu as <-. split; [reflexivity|].
  exists v. split; [|reflexivity]. now apply find_some in F.
Qed.

Lemma protect_hides_password_witness :
  authorization (set_user (Ref.bearer Ref.session)
                          (Some (User.without_password Ref.asha)))
    = authorization (Ref.bearer Ref.session)
  /\ body (set_user (Ref.bearer Ref.session)
                    (Some (User.without_password Ref.asha)))
     = body (Ref.bearer Ref.session)
  /\ forall u,
       user (set_user (Ref.bearer Ref.session)
                      (Some (User.without_password Ref.asha))) = Some u ->
       password u = VUndef
       /\ exists v, In v (users Ref.db1) /\ u = User.without_password v.
Proof.
  apply (protect_hides_password (L := Ref.libs) Ref.cfg 3000
           (Ref.bearer Ref.session) _ Ref.db1).
  vm_compute. reflexivity.
Defined.

(** ** Routes behind [protect] *)

(** A route behind [protect] either answers the 401 of [protect] or runs its
    handler on the request [protect] passed on, over the same store. *)
Lemma route_protect_inv {L : Libs}
  (cfg : env) (now : Z) (h : request -> Async.M DB response)
  (req : request) (db : DB) (res : result response) (d : DB) :
  route (protect cfg now) h req db = (res, d) ->
  (fst (protect cfg now req db) = Ok (Respond not_authorized)
   /\ res = Ok not_authorized /\ d = db)
  \/ (exists req', fst (protect cfg now req db) = Ok (Next req')
                   /\ h req' db = (res, d)).
Proof.
  unfold route, Async.bind. intros H.
  pose proof (protect_keeps_store cfg now req db) as Hs.
  destruct (protect_answers cfg now req db) as [[q Hq]|Hr];
    destruct (protect cfg now req db) as [r s]; simpl in *; subst.
  - right. exists q. auto.
  - left. unfold Async.ret in H. injection H as <- <-. auto.
Qed.

Lemma router_protected {L : Libs} (cfg : env) (now : Z) (e : endpoint) :
  protected e = true ->
  exists h, router cfg now e = route (protect cfg now) h.
Proof.
  destruct e; try discriminate; intros _; eexists; reflexivity.
Qed.

(** X4: a route behind [protect] that does anything but answer the 401 of
    [protect] was given a non-empty bearer token that [jwt.verify]
    accepted. *)
Theorem protected_routes_need_verified_token {L : Libs}
  (cfg : env) (now : Z) (e : endpoint) (req : request) (db db' : DB)
  (res : result response) :
  protected e = true ->
  router cfg now e req db = (res, db') ->
  res <> Ok not_authorized ->
  exists t decoded,
    bearer_token req = Some t /\ t <> ""
    /\ jwt_verify t (JWT_SECRET cfg) now = Ok decoded.
Proof.
  intros He Hrun Hres.
  destruct (router_protected cfg now e He) as [h Eh]. rewrite Eh in Hrun.
  apply route_protect_inv in Hrun.
  destruct Hrun as [(_ & Hr & _)|(q & Hq & _)]; [contradiction|].
  destruct (protect_next_inv cfg now req db q Hq)
    as (t & decoded & Ht & Hne & Hv & _).
  exists t, decoded. repeat split; auto. now apply String.eqb_neq.
Qed.

Lemma protected_routes_need_verified_token_witness :
  exists t decoded,
    bearer_token (Ref.bearer Ref.session) = Some t /\ t <> ""
    /\ jwt_verify (Libs := Ref.libs) t (JWT_SECRET Ref.cfg) 3000 = Ok decoded.
Proof.
  apply (protected_routes_need_verified_token (L := Ref.libs) Ref.cfg 3000
           PostAdminLogout (Ref.bearer Ref.session) Ref.db1 Ref.db1
           (Ok {| status := 403;
                  json := VObj [("status", VStr "error");
                                ("message", VStr "Access denied. Admin only.")] |})).
  - reflexivity.
  - vm_compute. reflexivity.
  - discriminate.
Defined.

(** X5: while the store is down every route behind [protect] answers the
    401 of [protect], valid token or not. *)
Theorem protected_routes_hide_store_failure {L : Libs}
  (cfg : env) (now : Z) (e : endpoint) (req : request) (db : DB) (msg : string) :
  protected e = true ->
  down db = Some msg ->
  router cfg now e req db = (Ok not_authorized, db).
Proof.
  intros He D.
  destruct (router_protected cfg now e He) as [h Eh]. rewrite Eh.
  unfold route, Async.bind. rewrite protect_unfold, D.
  destruct (bearer_token req) as [t|]; [|reflexivity].
  destruct (String.eqb t ""); [reflexivity|].
  destruct (jwt_verify t (JWT_SECRET cfg) now); reflexivity.
Qed.

Lemma protected_routes_hide_store_failure_witness :
  router (L := Ref.libs) Ref.cfg 3000 GetMe (Ref.bearer Ref.session) Ref.outage
  = (Ok not_authorized, Ref.outage).
Proof.
  apply (protected_routes_hide_store_failure (L := Ref.libs) Ref.cfg 3000 GetMe
           (Ref.bearer Ref.session) Ref.outage
           "connect ECONNREFUSED 127.0.0.1:27017");
    reflexivity.
Defined.

(** ** What the routes do to the store *)

Ltac keep_store :=
  repeat match goal with
  | H : User.findOne ?f ?s ?x = (_, ?y) |- _ =>
      let K := fresh in
      pose proof (findOne_keeps_store f s x) as K; rewrite H in K;
      simpl in K; subst y; clear H
  | H : User.comparePassword _ _ _ = _ |- _ =>
      apply comparePassword_keeps_store in H; subst
  end.

Lemma login_keeps_store {L : Libs} cfg now req db :
  snd (login cfg now req db) = db.
Proof.
  destruct (login cfg now req db) as [res d] eqn:R. simpl.
  unfold login, Async.try_catch, Async.bind, Async.lift, Async.ret in R.
  run_cases R; injection R as _ <-; keep_store; reflexivity.
Qed.

Lemma admin_login_keeps_store {L : Libs} cfg now req db :
  snd (admin_login cfg now req db) = db.
Proof.
  destruct (admin_login cfg now req db) as [res d] eqn:R. simpl.
  unfold admin_login, Async.try_catch, Async.bind, Async.lift, Async.ret in R.
  run_cases R; injection R as _ <-; keep_store; reflexivity.
Qed.

Lemma me_handler_keeps_store {L : Libs} req db :
  snd (me_handler req db) = db.
Proof.
  destruct (me_handler req db) as [res d] eqn:R. simpl.
  unfold me_handler, user_prop, User.findById,
    Async.try_catch, Async.bind, Async.ret, Async.throw in R.
  run_cases R; try (injection R as _ <-); keep_store;
    repeat match goal with
    | H : (_, _) = (_, _) |- _ => injection H as _ <-
    end; reflexivity.
Qed.

Lemma admin_logout_handler_keeps_store req db :
  snd (admin_logout_handler req db) = db.
Proof.
  unfold admin_logout_handler, user_prop, Async.bind, Async.ret, Async.throw.
  destruct (user req) as [u|]; simpl; [|reflexivity].
  destruct (not_admin (role u)); reflexivity.
Qed.

Lemma protected_route_keeps_store {L : Libs} cfg now h req db :
  (forall q, snd (h q db) = db) ->
  snd (route (protect cfg now) h req db) = db.
Proof.
  intros Hh.
  destruct (route (protect cfg now) h req db) as [res d] eqn:R. simpl.
  apply route_protect_inv in R.
  destruct R as [(_ & _ & ->)|(q & _ & R)]; [reflexivity|].
  specialize (Hh q). rewrite R in Hh. exact Hh.
Qed.

Lemma reading_routes_keep_store {L : Libs} cfg now e req db :
  e <> PostRegister -> snd (router cfg now e req db) = db.
Proof.
  intros He. destruct e; try contradiction; unfold router.
  - apply login_keeps_store.
  - apply protected_route_keeps_store. intros q. apply me_handler_keeps_store.
  - apply protected_route_keeps_store. reflexivity.
  - apply admin_login_keeps_store.
  - apply protected_route_keeps_store. intros q.
    apply admin_logout_handler_keeps_store.
Qed.

(** X6: only [/register] writes.  Every other route leaves the store as it
    found it, whatever it answers and even when it fails. *)
Theorem only_register_writes {L : Libs}
  (cfg : env) (now : Z) (e : endpoint) (req : request) (db : DB)
  (res : result response) (db' : DB) :
  router cfg now e req db = (res, db') ->
  db' <> db ->
  e = PostRegister
  /\ exists u, users db' = (users db ++ [u])%list
               /\ email u = body_field req "email".
Proof.
  intros Hrun Hd.
  destruct e;
    try (exfalso; apply Hd;
         match type of Hrun with
         | router _ _ ?e' _ _ = _ =>
             pose proof (reading_routes_keep_store cfg now e' req db) as K
         end;
         rewrite Hrun in K; apply K; discriminate).
  split; [reflexivity|].
  unfold router, register, Async.try_catch, Async.bind, Async.lift, Async.ret
    in Hrun.
  run_cases Hrun; injection Hrun as _ <-; keep_store;
    repeat match goal with
    | H : User.create _ _ _ = (Throw _, _) |- _ =>
        apply create_throw_keeps_store in H; subst
    end;
    try contradiction;
    match goal with
    | H : User.create _ _ _ = (Ok ?u, _) |- _ =>
        apply create_some_inv in H; destruct H as (Hu & He & _);
        exists u; split; [exact Hu|exact He]
    end.
Qed.

Lemma only_register_writes_witness :
  PostRegister = PostRegister
  /\ exists u,
       users (snd (router (L := Ref.libs) Ref.cfg 1000 PostRegister
                     Ref.signup Ref.empty))
       = (users Ref.empty ++ [u])%list
       /\ email u = body_field Ref.signup "email".
Proof.
  apply (only_register_writes (L := Ref.libs) Ref.cfg 1000 PostRegister
           Ref.signup Ref.empty
           (fst (router (L := Ref.libs) Ref.cfg 1000 PostRegister
                   Ref.signup Ref.empty))).
  - vm_compute. reflexivity.
  - vm_compute. discriminate.
Defined.

(** ** The shape of the answers *)

Ltac protected_cases R :=
  apply route_protect_inv in R;
  destruct R as [(_ & R & _)|(? & _ & R)];
  [ injection R as -> | ].

(** X8: every answer uses the same envelope: the body's [status] field is
    'success' exactly for a 2xx answer and 'error' otherwise, an error answer
    carries a message string, and the status code is one of 200, 201, 400,
    401, 403, 404 and 500. *)
Theorem answers_use_envelope {L : Libs}
  (cfg : env) (now : Z) (e : endpoint) (req : request) (db : DB) (r : response) :
  answer (router cfg now e req db) = Some r ->
  field (json r) "status" = Some (VStr (if success r then "success" else "error"))
  /\ In (status r) [200; 201; 400; 401; 403; 404; 500]
  /\ (success r = false -> exists m, message_of r = Some (VStr m)).
Proof.
  unfold answer.
  destruct (router cfg now e req db) as [res d] eqn:R. simpl.
  destruct res as [a|]; [|discriminate]. intros H. injection H as ->.
  destruct e; unfold router in R.
  - unfold register, Async.try_catch, Async.bind, Async.lift, Async.ret in R.
    run_cases R; injection R as <- _;
      (split; [reflexivity|]; split; [simpl; auto 10|]);
      intros; try discriminate; eexists; reflexivity.
  - unfold login, Async.try_catch, Async.bind, Async.lift, Async.ret in R.
    run_cases R; injection R as <- _;
      (split; [reflexivity|]; split; [simpl; auto 10|]);
      intros; try discriminate; eexists; reflexivity.
  - protected_cases R.
    + split; [reflexivity|]. split; [simpl; auto 10|]. intros; eexists; reflexivity.
    + unfold me_handler, user_prop, Async.try_catch, Async.bind, Async.ret,
        Async.throw in R.
      run_cases R; injection R as <- _;
        (split; [reflexivity|]; split; [simpl; auto 10|]);
        intros; try discriminate; eexists; reflexivity.
  - protected_cases R.
    + split; [reflexivity|]. split; [simpl; auto 10|]. intros; eexists; reflexivity.
    + unfold logout_handler, Async.ret in R. injection R as <- _.
      split; [reflexivity|]. split; [simpl; auto 10|]. intros; discriminate.
  - unfold admin_login, Async.try_catch, Async.bind, Async.lift, Async.ret in R.
    run_cases R; injection R as <- _;
      (split; [reflexivity|]; split; [simpl; auto 10|]);
      intros; try discriminate; eexists; reflexivity.
  - protected_cases R.
    + split; [reflexivity|]. split; [simpl; auto 10|]. intros; eexists; reflexivity.
    + unfold admin_logout_handler, user_prop, Async.bind, Async.ret,
        Async.throw in R.
      run_cases R; try discriminate R; injection R as <- _;
        (split; [reflexivity|]; split; [simpl; auto 10|]);
        intros; try discriminate; eexists; reflexivity.
Qed.

Lemma answers_use_envelope_witness :
  field (json not_authorized) "status"
    = Some (VStr (if success not_authorized then "success" else "error"))
  /\ In (status not_authorized) [200; 201; 400; 401; 403; 404; 500]
  /\ (success not_authorized = false ->
      exists m, message_of not_authorized = Some (VStr m)).
Proof.
  apply (answers_use_envelope (L := Ref.libs) Ref.cfg 3000 GetMe
           (Ref.post []) Ref.db1).
  vm_compute. reflexivity.
Defined.

(** X9: a token appears in an answer only when one of the three issuing
    routes succeeds; no error answer and no other route carries one. *)
Theorem token_only_on_success {L : Libs}
  (cfg : env) (now : Z) (e : endpoint) (req : request) (db : DB) (r : response) :
  answer (router cfg now e req db) = Some r ->
  token_of r <> None ->
  issues_token e = true /\ success r = true.
Proof.
  unfold answer.
  destruct (router cfg now e req db) as [res d] eqn:R. simpl.
  destruct res as [a|]; [|discriminate]. intros H. injection H as ->.
  intros Ht.
  destruct e; unfold router in R.
  - unfold register, Async.try_catch, Async.bind, Async.lift, Async.ret in R.
    run_cases R; injection R as <- _; try (now elim Ht); split; reflexivity.
  - unfold login, Async.try_catch, Async.bind, Async.lift, Async.ret in R.
    run_cases R; injection R as <- _; try (now elim Ht); split; reflexivity.
  - protected_cases R; [now elim Ht|].
    unfold me_handler, user_prop, Async.try_catch, Async.bind, Async.ret,
      Async.throw in R.
    run_cases R; injection R as <- _; now elim Ht.
  - protected_cases R; [now elim Ht|].
    unfold logout_handler, Async.ret in R. injection R as <- _. now elim Ht.
  - unfold admin_login, Async.try_catch, Async.bind, Async.lift, Async.ret in R.
    run_cases R; injection R as <- _; try (now elim Ht); split; reflexivity.
  - protected_cases R; [now elim Ht|].
    unfold admin_logout_handler, user_prop, Async.bind, Async.ret,
      Async.throw in R.
    run_cases R; try discriminate R; injection R as <- _; now elim Ht.
Qed.

Lemma token_only_on_success_witness :
  issues_token PostLogin = true
  /\ success {| status := 200;
                json := VObj [("status", VStr "success");
                              ("token", VStr Ref.session);
                              ("data", VObj [("user", VObj [
                                 ("id", VStr "u0");
                                 ("email", VStr "asha@example.com");
                                 ("firstName", VStr "Asha");
                                 ("lastName", VStr "Rao");
                                 ("role", VStr "customer")])])] |} = true.
Proof.
  apply (token_only_on_success (L := Ref.libs) Ref.cfg 2000 PostLogin
           Ref.credentials Ref.db1).
  - vm_compute. reflexivity.
  - discriminate.
Defined.

(** ** Logging in *)

(** X10: for a request whose body was parsed into an object, [/login] and
    [/admin/login] answer 400 'Please provide email and password' as soon as
    either field of that object is missing or falsy; the store is not
    consulted, so the answer is the same when the store is down. *)
Theorem login_requires_both_fields {L : Libs}
  (cfg : env) (now : Z) (e : endpoint) (req : request) (db : DB) :
  e = PostLogin \/ e = PostAdminLogin ->
  truthy (body_field req "email") = false
  \/ truthy (body_field req "password") = false ->
  router cfg now e req db
  = (Ok {| status := 400;
           json := VObj [("status", VStr "error");
                         ("message", VStr "Please provide email and password")] |},
     db).
Proof.
  intros He Hmiss.
  assert (G : negb (truthy (body_field req "email"))
              || negb (truthy (body_field req "password")) = true).
  { destruct Hmiss as [-> | ->]; [reflexivity|apply orb_true_r]. }
  destruct He as [-> | ->]; unfold router.
  - unfold login, Async.try_catch. rewrite G. reflexivity.
  - unfold admin_login, Async.try_catch. rewrite G. reflexivity.
Qed.

Lemma login_requires_both_fields_witness :
  router (L := Ref.libs) Ref.cfg 2000 PostAdminLogin
    (Ref.post [("email", VStr "root@example.com"); ("password", VStr "")])
    Ref.outage
  = (Ok {| status := 400;
           json := VObj [("status", VStr "error");
                         ("message", VStr "Please provide email and password")] |},
     Ref.outage).
Proof.
  apply (login_requires_both_fields (L := Ref.libs) Ref.cfg 2000 PostAdminLogin
           (Ref.post [("email", VStr "root@example.com"); ("password", VStr "")])
           Ref.outage).
  - right. reflexivity.
  - right. reflexivity.
Defined.

(** X11: with the store up and emails unique, a login with the email of a
    stored identity and a password its comparison accepts is answered 200
    with a token signed for that identity and with its id, email, names and
    role. *)
Theorem login_accepts_right_password {L : Libs}
  (cfg : env) (now : Z) (req : request) (db : DB)
  (e p t : string) (u : UserDoc) :
  down db = None ->
  unique_emails db ->
  In u (users db) ->
  email u = VStr e -> e <> "" ->
  body_field req "email" = VStr e ->
  body_field req "password" = VStr p -> p <> "" ->
  User.comparePassword u (VStr p) db = (Ok true, db) ->
  jwt_sign [("id", _id u)] (JWT_SECRET cfg) (JWT_EXPIRES_IN cfg) now = Ok t ->
  login cfg now req db
  = (Ok {| status := 200;
           json := VObj [("status", VStr "success");
                         ("token", VStr t);
                         ("data", VObj [("user", VObj [
                            ("id", _id u);
                            ("email", email u);
                            ("firstName", firstName u);
                            ("lastName", lastName u);
                            ("role", role u)])])] |}, db).
Proof.
  intros Hup Huniq Hin He Hne Hbe Hbp Hnp Hcmp Hsign.
  unfold login, Async.try_catch, Async.bind.
  rewrite Hbe, Hbp, (truthy_nonempty e Hne), (truthy_nonempty p Hnp). simpl.
  rewrite (findOne_up _ _ _ Hup), (find_by_email_unique db u e Huniq Hin He).
  simpl. rewrite Hcmp. simpl.
  unfold Async.lift, sign_token, token_payload. rewrite Hsign. reflexivity.
Qed.

Lemma login_accepts_right_password_witness :
  login (L := Ref.libs) Ref.cfg 2000 Ref.credentials Ref.db1
  = (Ok {| status := 200;
           json := VObj [("status", VStr "success");
                         ("token", VStr Ref.session);
                         ("data", VObj [("user", VObj [
                            ("id", _id Ref.asha);
                            ("email", email Ref.asha);
                            ("firstName", firstName Ref.asha);
                            ("lastName", lastName Ref.asha);
                            ("role", role Ref.asha)])])] |}, Ref.db1).
Proof.
  apply (login_accepts_right_password (L := Ref.libs) Ref.cfg 2000
           Ref.credentials Ref.db1 "asha@example.com" "Str0ng!Pass"
           Ref.session Ref.asha).
  - reflexivity.
  - exact unique_emails_db1.
  - simpl. left. reflexivity.
  - reflexivity.
  - discriminate.
  - reflexivity.
  - reflexivity.
  - discriminate.
  - vm_compute. reflexivity.
  - vm_compute. reflexivity.
Defined.

Lemma comparePassword_true_inv {L : Libs} u candidate db d :
  User.comparePassword u candidate db = (Ok true, d) ->
  exists h c, password u = VStr h /\ candidate = VStr c /\ pw_check c h = true.
Proof.
  unfold User.comparePassword, Async.ret, Async.throw.
  destruct (password u) as [| | | |h|]; try discriminate;
    destruct candidate as [| | | |c|]; try discriminate.
  intros H. injection H as H _. exists h, c. auto.
Qed.

Lemma matches_email_inv u x :
  User.matches [("email", x)] u = true -> email u = x.
Proof.
  change (User.matches [("email", x)] u)
    with (User.same_string (email u) x && true).
  rewrite andb_true_r.
  destruct (email u), x; simpl; try discriminate.
  intros H. apply String.eqb_eq in H. now subst.
Qed.

(** X12: a 2xx answer of [/login] or [/admin/login] means that the store
    holds an identity with the submitted email whose stored hash the
    submitted password passed; for [/admin/login] that identity is an
    admin. *)
Theorem login_success_is_sound {L : Libs}
  (cfg : env) (now : Z) (e : endpoint) (req : request) (db db' : DB)
  (r : response) :
  e = PostLogin \/ e = PostAdminLogin ->
  router cfg now e req db = (Ok r, db') ->
  success r = true ->
  exists u h p,
    In u (users db)
    /\ email u = body_field req "email"
    /\ password u = VStr h
    /\ body_field req "password" = VStr p
    /\ pw_check p h = true
    /\ (e = PostAdminLogin -> role u = VStr "admin").
Proof.
  intros He Hrun Hok.
  destruct He as [-> | ->]; unfold router in Hrun.
  - unfold login, Async.try_catch, Async.bind, Async.lift, Async.ret in Hrun.
    run_cases Hrun; injection Hrun as <- _; try discriminate Hok.
    match goal with
    | H : User.findOne _ _ _ = _ |- _ =>
        apply findOne_some_inv in H; destruct H as (-> & Hin & Hm)
    end.
    match goal with
    | H : negb ?b = false |- _ => destruct b; [clear H|discriminate H]
    end.
    match goal with
    | H : User.comparePassword _ _ _ = _ |- _ =>
        apply comparePassword_true_inv in H; destruct H as (h & c & Hh & Hc & Hchk)
    end.
    apply matches_email_inv in Hm.
    eexists _, h, c. repeat split; eauto. discriminate.
  - unfold admin_login, Async.try_catch, Async.bind, Async.lift, Async.ret in Hrun.
    run_cases Hrun; injection Hrun as <- _; try discriminate Hok.
    match goal with
    | H : User.findOne _ _ _ = _ |- _ =>
        apply findOne_some_inv in H; destruct H as (-> & Hin & Hm)
    end.
    match goal with
    | H : negb ?b = false |- _ => destruct b; [clear H|discriminate H]
    end.
    match goal with
    | H : User.comparePassword _ _ _ = _ |- _ =>
        apply comparePassword_true_inv in H; destruct H as (h & c & Hh & Hc & Hchk)
    end.
    match type of Hm with
    | User.matches [("email", ?x); _] ?v = true =>
        change (User.same_string (email v) x
                && (User.same_string (role v) (VStr "admin") && true) = true) in Hm
    end.
    rewrite andb_true_r in Hm.
    apply andb_prop in Hm. destruct Hm as [Hme Hmr].
    apply same_string_eq in Hmr.
    eexists _, h, c. repeat split; eauto.
    match type of Hme with
    | User.same_string ?a ?b = true =>
        destruct a, b; simpl in Hme; try discriminate
    end.
    apply String.eqb_eq in Hme. now subst.
Qed.

Lemma login_success_is_sound_witness :
  exists u h p,
    In u (users Ref.db2)
    /\ email u = body_field Ref.admin_credentials "email"
    /\ password u = VStr h
    /\ body_field Ref.admin_credentials "password" = VStr p
    /\ pw_check (Libs := Ref.libs) p h = true
    /\ (PostAdminLogin = PostAdminLogin -> role u = VStr "admin").
Proof.
  eapply (login_success_is_sound (L := Ref.libs) Ref.cfg 2000 PostAdminLogin
            Ref.admin_credentials Ref.db2).
  - right. reflexivity.
  - vm_compute. reflexivity.
  - reflexivity.
Defined.

(** ** Registering *)

(** X13: [/register] reads five fields of the body and nothing else: two
    requests that agree on email, password, firstName, lastName and phone
    are treated alike, whatever else they carry (a [role], say, or a
    header). *)
Theorem register_reads_five_fields {L : Libs}
  (cfg : env) (now : Z) (req1 req2 : request) (db : DB) :
  (forall k, In k ["email"; "password"; "firstName"; "lastName"; "phone"] ->
             body_field req1 k = body_field req2 k) ->
  register cfg now req1 db = register cfg now req2 db.
Proof.
  intros H. unfold register.
  rewrite (H "email"), (H "password"), (H "firstName"), (H "lastName"),
    (H "phone") by (simpl; auto 10).
  reflexivity.
Qed.

Lemma register_reads_five_fields_witness :
  register (L := Ref.libs) Ref.cfg 1000
    {| authorization := Some "Bearer x";
       body := [("role", VStr "admin"); ("email", VStr "asha@example.com");
                ("password", VStr "abc")];
       user := None |} Ref.empty
  = register (L := Ref.libs) Ref.cfg 1000 Ref.weak_signup Ref.empty.
Proof.
  apply (register_reads_five_fields (L := Ref.libs)).
  intros k Hk. simpl in Hk.
  repeat (destruct Hk as [<-|Hk]; [reflexivity|]).
  contradiction.
Defined.

Lemma find_fresh {A} (f : A -> bool) (l : list A) (x : A) :
  (forall v, In v l -> f v = false) ->
  find f (l ++ [x]) = if f x then Some x else None.
Proof.
  induction l as [|a l IH]; simpl; intros H; [reflexivity|].
  rewrite (H a) by now left. apply IH. intros v Hv. apply H. now right.
Qed.

Lemma no_email_no_match db e :
  (forall v, In v (users db) -> email v <> VStr e) ->
  forall v, In v (users db) -> User.matches [("email", VStr e)] v = false.
Proof.
  intros H v Hv. rewrite matches_email.
  destruct (User.same_string (email v) (VStr e)) eqn:S; [|reflexivity].
  apply same_string_eq in S. elim (H v Hv S).
Qed.

Lemma no_email_find db e :
  (forall v, In v (users db) -> email v <> VStr e) ->
  find (User.matches [("email", VStr e)]) (users db) = None.
Proof.
  intros H.
  destruct (find _ (users db)) as [v|] eqn:F; [|reflexivity].
  apply find_some in F. destruct F as [Hv Hm].
  now rewrite (no_email_no_match db e H v Hv) in Hm.
Qed.

Lemma no_email_existsb db e :
  (forall v, In v (users db) -> email v <> VStr e) ->
  existsb (fun v => User.same_string (email v) (VStr e)) (users db) = false.
Proof.
  intros H.
  destruct (existsb _ (users db)) eqn:X; [|reflexivity].
  apply existsb_exists in X. destruct X as (v & Hv & S).
  apply same_string_eq in S. elim (H v Hv S).
Qed.

(** X14: the identity is created before the token is signed and nothing
    undoes it.  When [jwt.sign] throws (no secret configured, say), a
    registration with a fresh email is answered 400 with the signer's
    message, yet the identity is in the store and the same registration,
    sent again, is answered 'User already exists'. *)
Theorem register_keeps_identity_when_signing_fails {L : Libs}
  (cfg : env) (now : Z) (req : request) (db : DB) (e msg : string) :
  down db = None ->
  body_field req "email" = VStr e ->
  (forall v, In v (users db) -> email v <> VStr e) ->
  (forall payload,
      jwt_sign payload (JWT_SECRET cfg) (JWT_EXPIRES_IN cfg) now = Throw msg) ->
  exists u db',
    register cfg now req db
    = (Ok {| status := 400;
             json := VObj [("status", VStr "error"); ("message", VStr msg)] |},
       db')
    /\ users db' = (users db ++ [u])%list
    /\ email u = VStr e
    /\ register cfg now req db'
       = (Ok {| status := 400;
                json := VObj [("status", VStr "error");
                              ("message", VStr "User already exists")] |},
          db').
Proof.
  intros Hup Hbe Hfresh Hsign.
  unfold register at 1. unfold Async.try_catch, Async.bind.
  rewrite (findOne_up _ _ _ Hup), Hbe, (no_email_find db e Hfresh). simpl.
  unfold User.create. rewrite Hup. simpl get.
  change (get [("email", VStr e); ("password", body_field req "password");
               ("firstName", body_field req "firstName");
               ("lastName", body_field req "lastName");
               ("phone", body_field req "phone")] "email") with (VStr e).
  rewrite (no_email_existsb db e Hfresh).
  unfold Async.lift, sign_token. rewrite Hsign.
  eexists _, _. split; [reflexivity|]. split; [reflexivity|].
  split; [reflexivity|].
  unfold register, Async.try_catch, Async.bind.
  rewrite findOne_up by reflexivity. rewrite Hbe. cbn [users].
  rewrite find_fresh by (apply no_email_no_match; exact Hfresh).
  rewrite matches_email. simpl. rewrite String.eqb_refl. reflexivity.
Qed.

Lemma register_keeps_identity_when_signing_fails_witness :
  exists u db',
    register (L := Ref.libs) Ref.unconfigured 1000 Ref.signup Ref.empty
    = (Ok {| status := 400;
             json := VObj [("status", VStr "error");
                           ("message", VStr "secretOrPrivateKey must have a value")] |},
       db')
    /\ users db' = (users Ref.empty ++ [u])%list
    /\ email u = VStr "asha@example.com"
    /\ register (L := Ref.libs) Ref.unconfigured 1000 Ref.signup db'
       = (Ok {| status := 400;
                json := VObj [("status", VStr "error");
                              ("message", VStr "User already exists")] |},
          db').
Proof.
  apply (register_keeps_identity_when_signing_fails (L := Ref.libs)
           Ref.unconfigured 1000 Ref.signup Ref.empty "asha@example.com"
           "secretOrPrivateKey must have a value").
  - reflexivity.
  - reflexivity.
  - intros v [].
  - intros payload. reflexivity.
Defined.

Lemma create_ok_inv {L : Libs} fields now db u d :
  User.create fields now db = (Ok u, d) ->
  down db = None /\ down d = None
  /\ users d = (users db ++ [u])%list
  /\ email u = get fields "email"
  /\ password u = match get fields "password" with
                  | VStr p => VStr (pw_hash p)
                  | _ => VUndef
                  end
  /\ existsb (fun v => User.same_string (email v) (get fields "email")) (users db)
     = false.
Proof.
  unfold User.create. destruct (down db) eqn:D; [discriminate|].
  destruct (existsb _ (users db)) eqn:X; [discriminate|].
  intros H. injection H as <- <-. simpl. auto 10.
Qed.

(** X15: registering and then logging in with the same email and password
    succeeds, provided the hash accepts the password it was made from: the
    login is answered 200 with a fresh token and the very user object the
    registration returned. *)
Theorem register_then_login {L : Libs}
  (cfg : env) (now later : Z) (req req' : request) (db db1 : DB)
  (r : response) (e p t2 : string) :
  (forall c, pw_check c (pw_hash c) = true) ->
  body_field req "email" = VStr e -> e <> "" ->
  body_field req "password" = VStr p -> p <> "" ->
  body_field req' "email" = VStr e ->
  body_field req' "password" = VStr p ->
  register cfg now req db = (Ok r, db1) ->
  status r = 201 ->
  (forall o, returned_user r = Some o ->
             jwt_sign [("id", get o "id")] (JWT_SECRET cfg) (JWT_EXPIRES_IN cfg) later
             = Ok t2) ->
  exists r2,
    login cfg later req' db1 = (Ok r2, db1)
    /\ status r2 = 200
    /\ token_of r2 = Some (VStr t2)
    /\ returned_user r2 = returned_user r.
Proof.
  intros Hhash Hbe Hne Hbp Hnp Hbe' Hbp' Hreg Hst Hsign.
  unfold register, Async.try_catch, Async.bind, Async.lift, Async.ret in Hreg.
  rewrite Hbe, Hbp in Hreg.
  run_cases Hreg; injection Hreg as <- <-; try discriminate Hst.
  keep_store.
  match goal with
  | H : User.create _ _ _ = _ |- _ =>
      apply create_ok_inv in H;
      destruct H as (Hup & Hup1 & Hus & Hem & Hpw & Hx)
  end.
  change (get _ "email") with (VStr e) in Hem, Hx.
  change (get _ "password") with (VStr p) in Hpw.
  specialize (Hsign _ eq_refl). unfold get in Hsign. simpl in Hsign.
  unfold login, Async.try_catch, Async.bind.
  rewrite Hbe', Hbp', (truthy_nonempty e Hne), (truthy_nonempty p Hnp). simpl.
  rewrite (findOne_up _ _ _ Hup1), Hus.
  rewrite find_fresh.
  - rewrite matches_email, Hem. simpl. rewrite String.eqb_refl. simpl.
    unfold User.comparePassword. rewrite Hpw. unfold Async.ret.
    rewrite Hhash. simpl.
    unfold Async.lift, sign_token, token_payload. rewrite Hsign.
    eexists. split; [reflexivity|]. split; [reflexivity|].
    split; [reflexivity|]. unfold returned_user. simpl. now rewrite Hem.
  - intros v Hv. rewrite matches_email.
    destruct (User.same_string (email v) (VStr e)) eqn:S; [|reflexivity].
    assert (existsb (fun w => User.same_string (email w) (VStr e)) (users db)
            = true) by (apply existsb_exists; eauto).
    congruence.
Qed.

Lemma register_then_login_witness :
  exists r2,
    login (L := Ref.libs) Ref.cfg 2000 Ref.credentials Ref.db1 = (Ok r2, Ref.db1)
    /\ status r2 = 200
    /\ token_of r2 = Some (VStr Ref.session)
    /\ returned_user r2
       = returned_user
           (match fst (register (L := Ref.libs) Ref.cfg 1000 Ref.signup Ref.empty) with
            | Ok r => r
            | Throw _ => not_authorized
            end).
Proof.
  apply (register_then_login (L := Ref.libs) Ref.cfg 1000 2000 Ref.signup
           Ref.credentials Ref.empty Ref.db1 _
           "asha@example.com" "Str0ng!Pass" Ref.session).
  - intros c. apply String.eqb_refl.
  - reflexivity.
  - discriminate.
  - reflexivity.
  - discriminate.
  - reflexivity.
  - reflexivity.
  - vm_compute. reflexivity.
  - reflexivity.
  - intros o Ho. vm_compute in Ho. injection Ho as <-. vm_compute. reflexivity.
Defined.

(** ** Behind [protect]: profile and admin logout *)

Lemma findById_inv id sel db res d :
  User.findById id sel db = (Ok res, d) ->
  d = db /\ down db = None
  /\ res = option_map (User.project sel)
             (find (User.matches [("_id", id)]) (users db)).
Proof.
  unfold User.findById, User.findOne. destruct (down db); [discriminate|].
  intros H. injection H as <- <-. auto.
Qed.

Lemma matches_id_inv u id : User.matches [("_id", id)] u = true -> _id u = id.
Proof.
  change (User.matches [("_id", id)] u)
    with (User.same_string (_id u) id && true).
  rewrite andb_true_r.
  destruct (_id u), id; simpl; try discriminate.
  intros H. apply String.eqb_eq in H. now subst.
Qed.

(** X16: with a verified token whose subject is in the store, [/me] answers
    200 with the profile of that subject: the ten fields of the stored
    document, read by the id in the token. *)
Theorem me_returns_subject_profile {L : Libs}
  (cfg : env) (now : Z) (req : request) (db : DB)
  (t : string) (decoded : obj) (v : UserDoc) :
  bearer_token req = Some t -> t <> "" ->
  jwt_verify t (JWT_SECRET cfg) now = Ok decoded ->
  User.findById (get decoded "id") MinusPassword db = (Ok (Some v), db) ->
  me cfg now req db
  = (Ok {| status := 200;
           json := VObj [("status", VStr "success");
                         ("data", VObj [("user", VObj [
                            ("id", _id v);
                            ("email", email v);
                            ("firstName", firstName v);
                            ("lastName", lastName v);
                            ("role", role v);
                            ("phone", phone v);
                            ("address", address v);
                            ("languagePreference", languagePreference v);
                            ("createdAt", createdAt v);
                            ("updatedAt", updatedAt v)])])] |}, db).
Proof.
  intros Ht Hne Hv Hfind.
  pose proof Hfind as Hf.
  apply findById_inv in Hf. destruct Hf as (_ & Hup & Hres).
  destruct (find (User.matches [("_id", get decoded "id")]) (users db))
    as [u|] eqn:F; simpl in Hres; [|discriminate].
  injection Hres as ->.
  assert (Hid : _id u = get decoded "id")
    by (apply matches_id_inv; now apply find_some in F).
  apply String.eqb_neq in Hne.
  unfold me, route, Async.bind.
  rewrite protect_unfold, Ht, Hne, Hv, Hup, F. simpl.
  unfold me_handler, Async.try_catch, Async.bind, user_prop. simpl.
  rewrite <- Hid in Hfind. rewrite Hfind. reflexivity.
Qed.

Lemma me_returns_subject_profile_witness :
  me (L := Ref.libs) Ref.cfg 3000 (Ref.bearer Ref.session) Ref.db2
  = (Ok {| status := 200;
           json := VObj [("status", VStr "success");
                         ("data", VObj [("user", VObj [
                            ("id", VStr "u0");
                            ("email", VStr "asha@example.com");
                            ("firstName", VStr "Asha");
                            ("lastName", VStr "Rao");
                            ("role", VStr "customer");
                            ("phone", VStr "+919876543210");
                            ("address", VUndef);
                            ("languagePreference", VUndef);
                            ("createdAt", VNum 1000);
                            ("updatedAt", VNum 1000)])])] |}, Ref.db2).
Proof.
  apply (me_returns_subject_profile (L := Ref.libs) Ref.cfg 3000
           (Ref.bearer Ref.session) Ref.db2 Ref.session
           [("id", VStr "u0"); ("iat", VNum 2000); ("exp", VNum 606800)]
           (User.without_password Ref.asha)).
  - reflexivity.
  - vm_compute. discriminate.
  - vm_compute. reflexivity.
  - vm_compute. reflexivity.
Defined.

Lemma not_admin_false x : not_admin x = false <-> x = VStr "admin".
Proof.
  destruct x; simpl; split; try discriminate.
  - intros H. apply negb_false_iff, String.eqb_eq in H. now subst.
  - intros H. injection H as ->. reflexivity.
Qed.

(** X17: [/admin/logout] decides by the role of the stored identity the
    token names, not by anything in the request: an admin is answered 200,
    every other identity 403 'Access denied. Admin only.'. *)
Theorem admin_logout_by_stored_role {L : Libs}
  (cfg : env) (now : Z) (req : request) (db : DB)
  (t : string) (decoded : obj) (v : UserDoc) :
  bearer_token req = Some t -> t <> "" ->
  jwt_verify t (JWT_SECRET cfg) now = Ok decoded ->
  User.findById (get decoded "id") MinusPassword db = (Ok (Some v), db) ->
  (role v = VStr "admin" ->
   admin_logout cfg now req db
   = (Ok {| status := 200;
            json := VObj [("status", VStr "success");
                          ("message", VStr "Admin logged out successfully")] |},
      db))
  /\ (role v <> VStr "admin" ->
      admin_logout cfg now req db
      = (Ok {| status := 403;
               json := VObj [("status", VStr "error");
                             ("message", VStr "Access denied. Admin only.")] |},
         db)).
Proof.
  intros Ht Hne Hv Hfind.
  apply findById_inv in Hfind. destruct Hfind as (_ & Hup & Hres).
  destruct (find (User.matches [("_id", get decoded "id")]) (users db))
    as [u|] eqn:F; simpl in Hres; [|discriminate].
  injection Hres as ->.
  apply String.eqb_neq in Hne.
  assert (E : admin_logout cfg now req db
              = admin_logout_handler
                  (set_user req (Some (User.without_password u))) db).
  { unfold admin_logout, route, Async.bind.
    rewrite protect_unfold, Ht, Hne, Hv, Hup, F. reflexivity. }
  rewrite E. unfold admin_logout_handler, user_prop, Async.bind. simpl.
  split; intros Hr.
  - rewrite Hr. reflexivity.
  - destruct (not_admin (role u)) eqn:N; [reflexivity|].
    apply not_admin_false in N. contradiction.
Qed.

Lemma admin_logout_by_stored_role_witness :
  (role (User.without_password Ref.root) = VStr "admin" ->
   admin_logout (L := Ref.libs) Ref.cfg 3000 (Ref.bearer Ref.admin_session) Ref.db2
   = (Ok {| status := 200;
            json := VObj [("status", VStr "success");
                          ("message", VStr "Admin logged out successfully")] |},
      Ref.db2))
  /\ (role (User.without_password Ref.root) <> VStr "admin" ->
      admin_logout (L := Ref.libs) Ref.cfg 3000 (Ref.bearer Ref.admin_session) Ref.db2
      = (Ok {| status := 403;
               json := VObj [("status", VStr "error");
                             ("message", VStr "Access denied. Admin only.")] |},
         Ref.db2)).
Proof.
  apply (admin_logout_by_stored_role (L := Ref.libs) Ref.cfg 3000
           (Ref.bearer Ref.admin_session) Ref.db2 Ref.admin_session
           [("id", VStr "u1"); ("iat", VNum 2000); ("exp", VNum 606800)]
           (User.without_password Ref.root)).
  - reflexivity.
  - vm_compute. discriminate.
  - vm_compute. reflexivity.
  - vm_compute. reflexivity.
Defined.

(** X18: when the token verifies but the store holds no identity with its
    id, the handlers behind [protect] run on [req.user = null]: [/logout]
    answers 200, [/me] answers 500, and [/admin/logout], which has no [try]
    block, throws a [TypeError] and sends no answer at all. *)
Theorem handlers_run_without_subject {L : Libs}
  (cfg : env) (now : Z) (req : request) (db : DB) (t : string) (decoded : obj) :
  bearer_token req = Some t -> t <> "" ->
  jwt_verify t (JWT_SECRET cfg) now = Ok decoded ->
  User.findById (get decoded "id") MinusPassword db = (Ok None, db) ->
  logout cfg now req db
  = (Ok {| status := 200;
           json := VObj [("status", VStr "success");
                         ("message", VStr "Logged out successfully")] |}, db)
  /\ me cfg now req db
     = (Ok {| status := 500;
              json := VObj [("status", VStr "error");
                            ("message", VStr "Error retrieving user profile")] |},
        db)
  /\ admin_logout cfg now req db
     = (Throw "Cannot read properties of null (reading 'role')", db).
Proof.
  intros Ht Hne Hv Hfind.
  apply findById_inv in Hfind. destruct Hfind as (_ & Hup & Hres).
  destruct (find (User.matches [("_id", get decoded "id")]) (users db))
    as [u|] eqn:F; simpl in Hres; [discriminate|].
  apply String.eqb_neq in Hne.
  unfold logout, me, admin_logout, route, Async.bind.
  rewrite protect_unfold, Ht, Hne, Hv, Hup, F.
  repeat split.
Qed.

Lemma handlers_run_without_subject_witness :
  logout (L := Ref.libs) Ref.cfg 3000 (Ref.bearer Ref.admin_session) Ref.db1
  = (Ok {| status := 200;
           json := VObj [("status", VStr "success");
                         ("message", VStr "Logged out successfully")] |}, Ref.db1)
  /\ me (L := Ref.libs) Ref.cfg 3000 (Ref.bearer Ref.admin_session) Ref.db1
     = (Ok {| status := 500;
              json := VObj [("status", VStr "error");
                            ("message", VStr "Error retrieving user profile")] |},
        Ref.db1)
  /\ admin_logout (L := Ref.libs) Ref.cfg 3000 (Ref.bearer Ref.admin_session) Ref.db1
     = (Throw "Cannot read properties of null (reading 'role')", Ref.db1).
Proof.
  apply (handlers_run_without_subject (L := Ref.libs) Ref.cfg 3000
           (Ref.bearer Ref.admin_session) Ref.db1 Ref.admin_session
           [("id", VStr "u1"); ("iat", VNum 2000); ("exp", VNum 606800)]).
  - reflexivity.
  - vm_compute. discriminate.
  - vm_compute. reflexivity.
  - vm_compute. reflexivity.
Defined.

(** ** Errors from the store and the libraries *)

(** X19: with the store down, [/register] and [/login] answer 400 and pass
    the store's error message on to the caller word for word, while
    [/admin/login] answers 500 with a fixed message. *)
Theorem store_failure_answers {L : Libs}
  (cfg : env) (now : Z) (req : request) (db : DB) (msg : string) :
  down db = Some msg ->
  truthy (body_field req "email") = true ->
  truthy (body_field req "password") = true ->
  register cfg now req db
  = (Ok {| status := 400;
           json := VObj [("status", VStr "error"); ("message", VStr msg)] |}, db)
  /\ login cfg now req db
     = (Ok {| status := 400;
              json := VObj [("status", VStr "error"); ("message", VStr msg)] |}, db)
  /\ admin_login cfg now req db
     = (Ok {| status := 500;
              json := VObj [("status", VStr "error");
                            ("message", VStr "Error during admin login")] |}, db).
Proof.
  intros D He Hp. repeat split.
  - exact (register_store_failure cfg now req db msg D).
  - exact (login_store_failure cfg now req db msg He Hp D).
  - exact (admin_login_store_failure cfg now req db msg He Hp D).
Qed.

Lemma store_failure_answers_witness :
  register (L := Ref.libs) Ref.cfg 2000 Ref.credentials Ref.outage
  = (Ok {| status := 400;
           json := VObj [("status", VStr "error");
                         ("message", VStr "connect ECONNREFUSED 127.0.0.1:27017")] |},
     Ref.outage)
  /\ login (L := Ref.libs) Ref.cfg 2000 Ref.credentials Ref.outage
     = (Ok {| status := 400;
              json := VObj [("status", VStr "error");
                            ("message", VStr "connect ECONNREFUSED 127.0.0.1:27017")] |},
        Ref.outage)
  /\ admin_login (L := Ref.libs) Ref.cfg 2000 Ref.credentials Ref.outage
     = (Ok {| status := 500;
              json := VObj [("status", VStr "error");
                            ("message", VStr "Error during admin login")] |},
        Ref.outage).
Proof.
  apply (store_failure_answers (L := Ref.libs) Ref.cfg 2000 Ref.credentials
           Ref.outage "connect ECONNREFUSED 127.0.0.1:27017");
    reflexivity.
Defined.

(** X20: every route but [/register] and [/login] words its answers itself:
    the message is one of nine fixed strings, or absent on a successful
    profile or admin login answer, and never text thrown by the store, by
    [jsonwebtoken] or by the password comparison. *)
Theorem fixed_messages {L : Libs}
  (cfg : env) (now : Z) (e : endpoint) (req : request) (db : DB) (r : response) :
  e <> PostRegister -> e <> PostLogin ->
  answer (router cfg now e req db) = Some r ->
  In (message_of r)
     [None;
      Some (VStr "Not authorized to access this route");
      Some (VStr "User not found");
      Some (VStr "Error retrieving user profile");
      Some (VStr "Logged out successfully");
      Some (VStr "Please provide email and password");
      Some (VStr "Invalid admin credentials");
      Some (VStr "Error during admin login");
      Some (VStr "Access denied. Admin only.");
      Some (VStr "Admin logged out successfully")].
Proof.
  intros H1 H2. unfold answer.
  destruct (router cfg now e req db) as [res d] eqn:R. simpl.
  destruct res as [a|]; [|discriminate]. intros H. injection H as ->.
  destruct e; try contradiction; unfold router in R.
  - protected_cases R; [simpl; auto 20|].
    unfold me_handler, user_prop, Async.try_catch, Async.bind, Async.ret,
      Async.throw in R.
    run_cases R; injection R as <- _; simpl; auto 20.
  - protected_cases R; [simpl; auto 20|].
    unfold logout_handler, Async.ret in R. injection R as <- _. simpl; auto 20.
  - unfold admin_login, Async.try_catch, Async.bind, Async.lift, Async.ret in R.
    run_cases R; injection R as <- _; simpl; auto 20.
  - protected_cases R; [simpl; auto 20|].
    unfold admin_logout_handler, user_prop, Async.bind, Async.ret,
      Async.throw in R.
    run_cases R; try discriminate R; injection R as <- _; simpl; auto 20.
Qed.

Lemma fixed_messages_witness :
  In (message_of
        {| status := 500;
           json := VObj [("status", VStr "error");
                         ("message", VStr "Error during admin login")] |})
     [None;
      Some (VStr "Not authorized to access this route");
      Some (VStr "User not found");
      Some (VStr "Error retrieving user profile");
      Some (VStr "Logged out successfully");
      Some (VStr "Please provide email and password");
      Some (VStr "Invalid admin credentials");
      Some (VStr "Error during admin login");
      Some (VStr "Access denied. Admin only.");
      Some (VStr "Admin logged out successfully")].
Proof.
  apply (fixed_messages (L := Ref.libs) Ref.cfg 2000 PostAdminLogin
           Ref.credentials Ref.outage).
  - discriminate.
  - discriminate.
  - vm_compute. reflexivity.
Defined.
